(** * SunThemeSwitcher: sunrise/sunset solver and day/night classifier

    A shallow embedding of [SunThemeSwitcher.py] (Python 2).

    - Python [int] values are [Z]; [/] between two ints is floor division.
    - Python [float] values are idealised as real numbers ([R]): every
      arithmetic operation is exact, [math.sin], [math.cos], [math.sqrt]
      are the real functions, [math.pi] is [PI].  Rounding, NaN and
      infinities are outside this model.
    - Two places are also transcribed on IEEE 754 binary64 numbers
      (Rocq's primitive [float], round to nearest, ties to even), bit
      for bit: the conversion of a float collar by [timedelta], and
      [__getRange] as [getRange_float].
    - Raising code returns [Err e]; the error monad threads it.
    - [datetime] values are records of their fields; the library
      operations the program calls ([replace], [timetuple],
      [utctimetuple], comparison, [+]/[-] with a [timedelta]) follow the
      CPython implementation over the proleptic Gregorian calendar.
    - The editor's settings objects are finite maps from keys to
      values; [print] appends to a console; [sublime.set_timeout]
      appends to the list of pending one-shot timeouts. *)

From Stdlib Require Import PrimFloat QArith.
From Stdlib Require FloatOps SpecFloat.
From Stdlib Require Import ZArith Reals Lra Lia Bool List String.
Import ListNotations.

Local Open Scope Z_scope.

(** ** Exceptions and the error monad *)

Inductive value_error : Type :=
| VE_date_needs_tzinfo   (* "The date must be a datetime object with timezone info." *)
| VE_invalid_zenith      (* "Invalid zenith name [%s] must be one of: %s" *)
| VE_invalid_latitude    (* "Invalid latitude: %s" *)
| VE_hour_range          (* datetime: "hour must be in 0..23" *)
| VE_minute_range        (* datetime: "minute must be in 0..59" *)
| VE_second_range        (* datetime: "second must be in 0..59" *)
| VE_microsecond_range   (* datetime: "microsecond must be in 0..999999" *)
| VE_math_domain         (* math: "math domain error" *)
| VE_float_nan.          (* "cannot convert float NaN to integer" *)

Inductive exn : Type :=
| ValueError (why : value_error)
| ZeroDivisionError
| OverflowError
| TypeError
| KeyError.

Inductive result (A : Type) : Type :=
| Ok (a : A)
| Err (e : exn).
Arguments Ok {A} a.
Arguments Err {A} e.

Definition bind {A B : Type} (r : result A) (k : A -> result B) : result B :=
  match r with
  | Ok a => k a
  | Err e => Err e
  end.

Notation "x <- c ;; k" := (bind c (fun x => k))
  (at level 61, c at next level, right associativity).

(** The three [raise ValueError] statements of [SunriseSunset.__init__]:
    what the specification calls [InvalidInputError]. *)
Definition is_InvalidInputError (e : exn) : bool :=
  match e with
  | ValueError VE_date_needs_tzinfo
  | ValueError VE_invalid_zenith
  | ValueError VE_invalid_latitude => true
  | _ => false
  end.

(** ** Python floats as binary64 numbers *)

(** [int(x)] and C's [PyLong_FromDouble]: truncation toward zero, to an
    integer of any size; an infinity raises [OverflowError], a NaN
    [ValueError].  A finite double is [m * 2^e] with its sign. *)
Definition float_to_int (x : float) : result Z :=
  match FloatOps.Prim2SF x with
  | SpecFloat.S754_zero _ => Ok 0
  | SpecFloat.S754_infinity _ => Err OverflowError
  | SpecFloat.S754_nan => Err (ValueError VE_float_nan)
  | SpecFloat.S754_finite s m e =>
    let a := if 0 <=? e then Zpos m * 2 ^ e else Zpos m / 2 ^ (- e) in
    Ok (if s then - a else a)
  end.

(** An integer as a float operand ([float(n)]): the nearest double. *)
Definition int_to_float (n : Z) : float :=
  FloatOps.SF2Prim (SpecFloat.binary_normalize FloatOps.prec FloatOps.emax n 0 false).

(** C's [floor] and [ceil] on a finite double, as integers. *)
Definition c_floor (x : float) : Z :=
  match FloatOps.Prim2SF x with
  | SpecFloat.S754_finite s m e =>
    if 0 <=? e then (if s then - (Zpos m * 2 ^ e) else Zpos m * 2 ^ e)
    else if s then - ((Zpos m + 2 ^ (- e) - 1) / 2 ^ (- e))
    else Zpos m / 2 ^ (- e)
  | _ => 0
  end.

Definition c_ceil (x : float) : Z :=
  match FloatOps.Prim2SF x with
  | SpecFloat.S754_finite s m e =>
    if 0 <=? e then (if s then - (Zpos m * 2 ^ e) else Zpos m * 2 ^ e)
    else if s then - (Zpos m / 2 ^ (- e))
    else (Zpos m + 2 ^ (- e) - 1) / 2 ^ (- e)
  | _ => 0
  end.

(** A number passed where an int or a float will do. *)
Inductive number : Type :=
| PyInt (n : Z)
| PyFloat (x : float).

Coercion PyInt : Z >-> number.

(** ** The [datetime] library *)

(** [tzinfo] objects are modelled by the fixed offset they report, in
    minutes east of UTC ([make_tz] in the source builds exactly such an
    object); [None] is a naive datetime. *)
Record datetime : Type := mkdatetime {
  year : Z;
  month : Z;
  day : Z;
  hour : Z;
  minute : Z;
  second : Z;
  microsecond : Z;
  tzinfo : option Z
}.

Definition MINYEAR : Z := 1.
Definition MAXYEAR : Z := 9999.
Definition MAXORDINAL : Z := 3652059.

Definition is_leap (y : Z) : bool :=
  (y mod 4 =? 0) && (negb (y mod 100 =? 0) || (y mod 400 =? 0)).

Definition days_before_year (y : Z) : Z :=
  let y' := y - 1 in y' * 365 + y' / 4 - y' / 100 + y' / 400.

(** [_DAYS_IN_MONTH] and [_DAYS_BEFORE_MONTH], with the leap day passed
    as a flag. *)
Definition DAYS_IN_MONTH (m : Z) : Z :=
  match m with
  | 1 => 31 | 2 => 28 | 3 => 31 | 4 => 30 | 5 => 31 | 6 => 30
  | 7 => 31 | 8 => 31 | 9 => 30 | 10 => 31 | 11 => 30 | 12 => 31
  | _ => 0
  end.

Definition DAYS_BEFORE_MONTH (m : Z) : Z :=
  match m with
  | 1 => 0 | 2 => 31 | 3 => 59 | 4 => 90 | 5 => 120 | 6 => 151
  | 7 => 181 | 8 => 212 | 9 => 243 | 10 => 273 | 11 => 304 | 12 => 334
  | _ => 0
  end.

Definition days_in_month_flag (leap : bool) (m : Z) : Z :=
  DAYS_IN_MONTH m + (if (m =? 2) && leap then 1 else 0).

Definition days_before_month_flag (leap : bool) (m : Z) : Z :=
  DAYS_BEFORE_MONTH m + (if (2 <? m) && leap then 1 else 0).

Definition days_in_month (y m : Z) : Z := days_in_month_flag (is_leap y) m.
Definition days_before_month (y m : Z) : Z := days_before_month_flag (is_leap y) m.

Definition ymd2ord (y m d : Z) : Z :=
  days_before_year y + days_before_month y m + d.

Definition DI400Y : Z := 146097.
Definition DI100Y : Z := 36524.
Definition DI4Y : Z := 1461.

(** The tail of [_ord2ymd]: from the day index inside the year and the
    leap flag to (month, day). *)
Definition month_day (leapyear : bool) (n : Z) : Z * Z :=
  let month := Z.shiftr (n + 50) 5 in
  let preceding := days_before_month_flag leapyear month in
  if n <? preceding then
    let month' := month - 1 in
    let preceding' := preceding - days_in_month_flag leapyear month' in
    (month', n - preceding' + 1)
  else (month, n - preceding + 1).

(** [_ord2ymd] after the 400-year cycles were split off: [n] is the day
    index inside the cycle, the year returned counts from 1. *)
Definition ord2ymd_cycle (n : Z) : Z * Z * Z :=
  let n100 := n / DI100Y in
  let n := n mod DI100Y in
  let n4 := n / DI4Y in
  let n := n mod DI4Y in
  let n1 := n / 365 in
  let n := n mod 365 in
  let y := 1 + n100 * 100 + n4 * 4 + n1 in
  if (n1 =? 4) || (n100 =? 4) then (y - 1, 12, 31)
  else
    let leapyear := (n1 =? 3) && (negb (n4 =? 24) || (n100 =? 3)) in
    let '(m, d) := month_day leapyear n in
    (y, m, d).

Definition ord2ymd (n : Z) : Z * Z * Z :=
  let n := n - 1 in
  let n400 := n / DI400Y in
  let '(y, m, d) := ord2ymd_cycle (n mod DI400Y) in
  (n400 * 400 + y, m, d).

Definition toordinal (dt : datetime) : Z := ymd2ord (year dt) (month dt) (day dt).

Definition valid_tzinfo (tz : option Z) : bool :=
  match tz with
  | None => true
  | Some off => (-1440 <? off) && (off <? 1440)
  end.

(** The invariant every [datetime] object satisfies (its constructor
    checks it). *)
Definition valid_datetime (dt : datetime) : bool :=
  (MINYEAR <=? year dt) && (year dt <=? MAXYEAR) &&
  (1 <=? month dt) && (month dt <=? 12) &&
  (1 <=? day dt) && (day dt <=? days_in_month (year dt) (month dt)) &&
  (0 <=? hour dt) && (hour dt <? 24) &&
  (0 <=? minute dt) && (minute dt <? 60) &&
  (0 <=? second dt) && (second dt <? 60) &&
  (0 <=? microsecond dt) && (microsecond dt <? 1000000) &&
  valid_tzinfo (tzinfo dt).

Definition US_PER_DAY : Z := 86400000000.

(** Microseconds since midnight. *)
Definition time_of_day (dt : datetime) : Z :=
  ((hour dt * 60 + minute dt) * 60 + second dt) * 1000000 + microsecond dt.

(** The full timestamp of the wall-clock fields: microseconds since
    0001-01-01T00:00:00. *)
Definition timestamp (dt : datetime) : Z :=
  (toordinal dt - 1) * US_PER_DAY + time_of_day dt.

(** [datetime.replace(hour=, minute=, second=, microsecond=)]: the new
    fields are checked in this order, everything else is kept. *)
Definition replace (dt : datetime) (h mi s us : Z) : result datetime :=
  if negb ((0 <=? h) && (h <=? 23)) then Err (ValueError VE_hour_range)
  else if negb ((0 <=? mi) && (mi <=? 59)) then Err (ValueError VE_minute_range)
  else if negb ((0 <=? s) && (s <=? 59)) then Err (ValueError VE_second_range)
  else if negb ((0 <=? us) && (us <=? 999999)) then Err (ValueError VE_microsecond_range)
  else Ok (mkdatetime (year dt) (month dt) (day dt) h mi s us (tzinfo dt)).

(** A [timedelta] is its length in microseconds. *)
Definition timedelta : Type := Z.

(** [round_to_long] of the datetime module: [floor(x + 0.5)] for
    [x >= 0.0], [ceil(x - 0.5)] otherwise, the sums in doubles. *)
Definition round_to_long (x : float) : Z :=
  if (0.0 <=? x)%float then c_floor (x + 0.5)%float else c_ceil (x - 0.5)%float.

(** The microseconds of [minutes=c], as the constructor accumulates
    them.  An int is multiplied by 60000000.  A float is split by
    [modf] into its whole minutes, multiplied exactly, and a fraction;
    a non-zero fraction is multiplied by 60000000.0 in doubles and
    split again, into whole microseconds and a leftover that
    [round_to_long] rounds. *)
Definition minutes_to_microseconds (c : number) : result Z :=
  match c with
  | PyInt n => Ok (n * 60000000)
  | PyFloat dnum =>
    intpart <- float_to_int dnum ;;
    let fracpart := (dnum - int_to_float intpart)%float in
    let sum := intpart * 60000000 in
    if (fracpart =? 0.0)%float then Ok sum
    else
      let dnum := (60000000.0 * fracpart)%float in
      intpart <- float_to_int dnum ;;
      let fracpart := (dnum - int_to_float intpart)%float in
      let y := sum + intpart in
      let leftover_us := (0.0 + fracpart)%float in
      if (leftover_us =? 0.0)%float then Ok y
      else Ok (y + round_to_long leftover_us)
  end.

(** [timedelta(minutes=c)] refuses more than 999999999 days. *)
Definition timedelta_minutes (c : number) : result timedelta :=
  us <- minutes_to_microseconds c ;;
  if Z.abs (us / US_PER_DAY) <=? 999999999 then Ok us else Err OverflowError.

(** [datetime + timedelta]: wall-clock arithmetic through the ordinal,
    [OverflowError] outside year 1..9999; the tzinfo is kept. *)
Definition datetime_add (dt : datetime) (td : timedelta) : result datetime :=
  let t := timestamp dt + td in
  let ordn := t / US_PER_DAY + 1 in
  let r := t mod US_PER_DAY in
  if (1 <=? ordn) && (ordn <=? MAXORDINAL) then
    let '(y, m, d) := ord2ymd ordn in
    Ok (mkdatetime y m d
          (r / 3600000000) (r / 60000000 mod 60) (r / 1000000 mod 60)
          (r mod 1000000) (tzinfo dt))
  else Err OverflowError.

Definition datetime_sub (dt : datetime) (td : timedelta) : result datetime :=
  datetime_add dt (- td).

(** Field-by-field comparison, most significant first. *)
Definition cmp_fields (a b : datetime) : comparison :=
  match year a ?= year b with
  | Eq =>
    match month a ?= month b with
    | Eq =>
      match day a ?= day b with
      | Eq =>
        match hour a ?= hour b with
        | Eq =>
          match minute a ?= minute b with
          | Eq =>
            match second a ?= second b with
            | Eq => microsecond a ?= microsecond b
            | c => c
            end
          | c => c
          end
        | c => c
        end
      | c => c
      end
    | c => c
    end
  | c => c
  end.

(** Comparison of two datetimes: by fields when both are naive or carry
    the same offset, by UTC instant when the offsets differ,
    [TypeError] for a naive against an aware one. *)
Definition datetime_cmp (a b : datetime) : result comparison :=
  match tzinfo a, tzinfo b with
  | None, None => Ok (cmp_fields a b)
  | Some oa, Some ob =>
    if oa =? ob then Ok (cmp_fields a b)
    else Ok (timestamp a - oa * 60000000 ?= timestamp b - ob * 60000000)
  | _, _ => Err TypeError
  end.

Definition datetime_gt (a b : datetime) : result bool :=
  c <- datetime_cmp a b ;;
  Ok (match c with Gt => true | _ => false end).

(** [timetuple()] as the 9-entry sequence the source indexes:
    (year, month, day, hour, minute, second, weekday, yearday, dst);
    the dst flag is 0 for a fixed-offset tzinfo and -1 for a naive
    datetime. *)
Definition timetuple_of (y m d h mi s dst : Z) : list Z :=
  [y; m; d; h; mi; s; (ymd2ord y m d + 6) mod 7; days_before_month y m + d; dst].

Definition timetuple (dt : datetime) : list Z :=
  timetuple_of (year dt) (month dt) (day dt) (hour dt) (minute dt) (second dt)
    (match tzinfo dt with Some _ => 0 | None => -1 end).

(** [utctimetuple()]: the offset is subtracted from the minutes and the
    fields are normalised, carrying into the date. *)
Definition utctimetuple (dt : datetime) : list Z :=
  match tzinfo dt with
  | None => timetuple_of (year dt) (month dt) (day dt) (hour dt) (minute dt) (second dt) 0
  | Some off =>
    let mm := hour dt * 60 + minute dt - off in
    let '(y, m, d) := ord2ymd (toordinal dt + mm / 1440) in
    timetuple_of y m d (mm mod 1440 / 60) (mm mod 60) (second dt) 0
  end.

(** Sequence indexing [t[i]] on a tuple known to be long enough. *)
Definition item (t : list Z) (i : nat) : Z := nth i t 0.

(** ** The [math] library on idealised floats *)

Local Open Scope R_scope.

Definition radians (x : R) : R := x * (PI / 180).
Definition degrees (x : R) : R := x * (180 / PI).
Definition fabs (x : R) : R := Rabs x.

(** [int(x)] on a float truncates toward zero. *)
Definition int (x : R) : Z :=
  if Rle_dec 0 x then Int_part x else (- Int_part (- x))%Z.

(** Python 2 [round(x)]: to the nearest integer, halves away from zero;
    the result is again a float. *)
Definition round (x : R) : R :=
  if Rle_dec 0 x then IZR (Int_part (x + / 2)) else IZR (- Int_part (- x + / 2)).

(** [math.sqrt] raises on a negative argument. *)
Definition math_sqrt (x : R) : result R :=
  if Rlt_dec x 0 then Err (ValueError VE_math_domain) else Ok (sqrt x).

(** Float division raises on a zero divisor. *)
Definition fdiv (a b : R) : result R :=
  if Req_EM_T b 0 then Err ZeroDivisionError else Ok (a / b).

(** [math.atan2(y, x)]: the angle of the point (x, y), in (-PI, PI]. *)
Definition atan2 (y x : R) : R :=
  if Rlt_dec 0 x then atan (y / x)
  else if Rlt_dec x 0 then
    (if Rle_dec 0 y then atan (y / x) + PI else atan (y / x) - PI)
  else if Rlt_dec 0 y then PI / 2
  else if Rlt_dec y 0 then - (PI / 2)
  else 0.

(** ** class SunriseSunset *)

Definition ZENITH : list (string * R) :=
  [ ("official"%string, -0.833);
    ("civil"%string, -6.0);
    ("nautical"%string, -12.0);
    ("amateur"%string, -15.0);
    ("astronomical"%string, -18.0) ].

Fixpoint dict_get (d : list (string * R)) (k : string) : option R :=
  match d with
  | [] => None
  | (k', v) :: d' => if String.eqb k k' then Some v else dict_get d' k
  end.

Definition dict_contains (d : list (string * R)) (k : string) : bool :=
  match dict_get d k with Some _ => true | None => false end.

(** The attributes [__init__] sets before it calls [__determineRiseSet]. *)
Record solver : Type := mksolver {
  dateLocal : datetime;
  lat : R;
  lon : R;
  zenith : string;
  offsetUTC : R
}.

(** The constructed object: the attributes above, then [__sunrise] and
    [__sunset]. *)
Record SunriseSunset : Type := mkSunriseSunset {
  self : solver;
  sunrise : datetime;
  sunset : datetime
}.

(** [__getRange] (lines 151-162). *)
Definition getRange (value : R) : R :=
  let tmp1 := value / (2.0 * PI) in
  let tmp2 := (2.0 * PI) * (tmp1 - IZR (int tmp1)) in
  if Rlt_dec tmp2 0.0 then tmp2 + 2.0 * PI else tmp2.

(** [math.pi], the double nearest to the number. *)
Definition math_pi : float := 0x1.921fb54442d18p+1%float.

(** [__getRange] (lines 151-162) once more, on doubles: every operation
    rounds as the interpreter's does, and [int] raises on an infinity
    or a NaN. *)
Definition getRange_float (value : float) : result float :=
  let tmp1 := (value / (2.0 * math_pi))%float in
  n <- float_to_int tmp1 ;;
  let tmp2 := ((2.0 * math_pi) * (tmp1 - int_to_float n))%float in
  let tmp2 := if (tmp2 <? 0.0)%float then (tmp2 + (2.0 * math_pi))%float else tmp2 in
  Ok tmp2.

(** [__get24HourLocalTime] (lines 164-191). *)
Definition get24HourLocalTime (s : solver) (rs : R) (decimalTime : R)
  : result datetime :=
  let decimalTime := decimalTime + offsetUTC s in
  let decimalTime :=
    if Rlt_dec decimalTime 0.0 then decimalTime + 24.0
    else if Rgt_dec decimalTime 24.0 then decimalTime - 24.0
    else decimalTime in
  let hour := int decimalTime in
  let tmp := (decimalTime - IZR hour) * 60 in
  let minute := int tmp in
  let tmp := (tmp - IZR minute) * 60 in
  let second := int tmp in
  let micro := int (round ((tmp - IZR second) * 1000000)) in
  replace (dateLocal s) hour minute second micro.

(** The variables of the [while] loop of [__determineRiseOrSet]. *)
Record loop_state : Type := mkloop {
  utold : R;
  utnew : R;
  ct : Z
}.

(** Lines 123-131 of the loop body: from the current estimate to the
    equation of time [e], the obliquity [obl] and the ecliptic
    longitude [lam]. *)
Definition ecliptic (ephem2000Day : R) (utold : R) : R * R * R :=
  let days := ephem2000Day + utold / (2 * PI) in
  let t := days / 36525 in
  let l := getRange (4.8949504201433 + 628.331969753199 * t) in
  let g := getRange (6.2400408 + 628.3019501 * t) in
  let ec := 0.033423 * sin g + 0.00034907 * sin (2 * g) in
  let lam := l + ec in
  let e := -1 * ec + 0.0430398 * sin (2 * lam) - 0.00092502 * sin (4 * lam) in
  let obl := 0.409093 - 0.0002269 * t in
  (e, obl, lam).

(** Lines 132-133: the solar declination [delta], handed on with [e]. *)
Definition sun_position (ephem2000Day : R) (utold : R) : result (R * R) :=
  let '(e, obl, lam) := ecliptic ephem2000Day utold in
  let delta := sin obl * sin lam in
  root <- math_sqrt (1 - delta * delta) ;;
  let delta := atan2 delta root in
  Ok (e, delta).

(** Lines 137-142: the clamped hour-angle correction. *)
Definition hour_correction (cosc : R) : result R :=
  if Rgt_dec cosc 1 then Ok 0
  else if Rlt_dec cosc (-1) then Ok PI
  else
    root <- math_sqrt (1 - cosc * cosc) ;;
    Ok (atan2 root cosc).

(** One round of the loop body (lines 121-145). *)
Definition loop_body (ephem2000Day sinAlt sinPhi cosPhi lon rs : R)
  (st : loop_state) : result loop_state :=
  let ct := (ct st + 1)%Z in
  let utold := utnew st in
  ed <- sun_position ephem2000Day utold ;;
  let '(e, delta) := ed in
  let gha := utold - PI + e in
  cosc <- fdiv (sinAlt - sinPhi * sin delta) (cosPhi * cos delta) ;;
  correction <- hour_correction cosc ;;
  let utnew := getRange (utold - (gha + lon + rs * correction)) in
  Ok (mkloop utold utnew ct).

(** The loop condition (line 120). *)
Definition loop_guard (st : loop_state) : bool :=
  (if Rgt_dec (fabs (utold st - utnew st)) 0.001 then true else false)
  && (ct st <? 35)%Z.

(** [while guard: body], with a bound on the rounds the model may
    unfold; [None] means the bound was too small. *)
Fixpoint while_loop (fuel : nat) (body : loop_state -> result loop_state)
  (st : loop_state) : option (result loop_state) :=
  if loop_guard st then
    match fuel with
    | O => None
    | S fuel' =>
      match body st with
      | Ok st' => while_loop fuel' body st'
      | Err e => Some (Err e)
      end
    end
  else Some (Ok st).

(** The same loop as a relation that counts the rounds. *)
Inductive loop_run (body : loop_state -> result loop_state)
  : nat -> loop_state -> result loop_state -> Prop :=
| loop_exit st :
    loop_guard st = false -> loop_run body 0 st (Ok st)
| loop_round n st st' r :
    loop_guard st = true -> body st = Ok st' ->
    loop_run body n st' r -> loop_run body (S n) st r
| loop_raise st e :
    loop_guard st = true -> body st = Err e ->
    loop_run body 1 st (Err e).

(** The state before the first test of the loop condition
    (lines 110-117). *)
Definition loop_init : loop_state := mkloop PI 0 0.

(** [__determineRiseOrSet] (lines 100-149). *)
Definition determineRiseOrSet (fuel : nat) (s : solver)
  (ephem2000Day : R) (rs : R) : option (result datetime) :=
  match dict_get ZENITH (zenith s) with
  | None => Some (Err KeyError)
  | Some altitude =>
    let sinAlt := sin (radians altitude) in
    let sinPhi := sin (radians (lat s)) in
    let cosPhi := cos (radians (lat s)) in
    let lon := radians (lon s) in
    match while_loop fuel (loop_body ephem2000Day sinAlt sinPhi cosPhi lon rs)
            loop_init with
    | None => None
    | Some (Err e) => Some (Err e)
    | Some (Ok st) =>
      let decimalTime := degrees (utnew st) / 15 in
      Some (get24HourLocalTime s rs decimalTime)
    end
  end.

(** The day count of line 95, with Python 2 integer division. *)
Definition ephem2000Day_of (year month day : Z) : R :=
  IZR (367 * year - (7 * (year + (month + 9) / 12) / 4)
       + (275 * month / 9) + day) - 730531.5.

(** [__determineRiseSet] (lines 87-98). *)
Definition determineRiseSet (fuel : nat) (s : solver)
  : option (result SunriseSunset) :=
  let year := year (dateLocal s) in
  let month := month (dateLocal s) in
  let day := day (dateLocal s) in
  let ephem2000Day := ephem2000Day_of year month day in
  match determineRiseOrSet fuel s ephem2000Day 1 with
  | None => None
  | Some (Err e) => Some (Err e)
  | Some (Ok rise) =>
    match determineRiseOrSet fuel s ephem2000Day (-1) with
    | None => None
    | Some (Err e) => Some (Err e)
    | Some (Ok set) => Some (Ok (mkSunriseSunset s rise set))
    end
  end.

(** The offset of lines 47-50. *)
Definition offsetUTC_of (date : datetime) : R :=
  let localTuple := timetuple date in
  let utcTuple := utctimetuple date in
  IZR (item localTuple 3 - item utcTuple 3)
  + IZR (item localTuple 4 - item utcTuple 4) / 60.0.

(** [SunriseSunset.__init__] (lines 23-53).  [date] is a datetime by
    its type, so of the first test only [date.tzinfo is None] remains. *)
Definition SunriseSunset_init (fuel : nat) (date : datetime) (lat lon : R)
  (zenith : string) : option (result SunriseSunset) :=
  match tzinfo date with
  | None => Some (Err (ValueError VE_date_needs_tzinfo))
  | Some _ =>
    if negb (dict_contains ZENITH zenith) then
      Some (Err (ValueError VE_invalid_zenith))
    else if Rgt_dec (Rabs lat) 63 then
      Some (Err (ValueError VE_invalid_latitude))
    else
      determineRiseSet fuel (mksolver date lat lon zenith (offsetUTC_of date))
  end.

(** The rounds the loop condition allows. *)
Definition MAX_ROUNDS : nat := 35.

(** [getSunRiseSet] (lines 79-85). *)
Definition getSunRiseSet (o : SunriseSunset) : datetime * datetime :=
  (sunrise o, sunset o).

(** [isNight] (lines 55-77); [collar] is a number of minutes, an int
    or a float.  [or] evaluates its right operand only when the left
    one is false. *)
Definition isNight (o : SunriseSunset) (collar : number) : result bool :=
  delta <- timedelta_minutes collar ;;
  early <- datetime_sub (sunrise o) delta ;;
  before <- datetime_gt early (dateLocal (self o)) ;;
  if before then Ok true
  else
    late <- datetime_add (sunset o) delta ;;
    after <- datetime_gt (dateLocal (self o)) late ;;
    Ok after.

(** ** class SunThemeSwitcher *)

Local Open Scope Z_scope.

(** Values a settings file can hold, and Python's truth test on them. *)
Inductive setting : Type :=
| SNone
| SBool (b : bool)
| SNumber (n : Z)
| SString (s : string).

Definition truthy (v : setting) : bool :=
  match v with
  | SNone => false
  | SBool b => b
  | SNumber n => negb (n =? 0)
  | SString s => negb (String.eqb s "")
  end.

(** [settings.get(key)] gives [None] for a key that is not set. *)
Definition settings : Type := string -> setting.

Record SunThemeSwitcher : Type := mkSunThemeSwitcher {
  sunrise_time : datetime;
  sunset_time : datetime
}.

(** [isItDark] (lines 251-274); [datetime_now] is the clock reading of
    line 252. *)
Definition isItDark (this : SunThemeSwitcher) (conf : settings)
  (datetime_now : datetime) : bool :=
  if truthy (conf "forceNight"%string) then true
  else if truthy (conf "forceDay"%string) then false
  else if (hour (sunrise_time this) <? hour datetime_now)
          && (hour datetime_now <? hour (sunset_time this)) then false
  else if hour (sunrise_time this) =? hour datetime_now then
    (if minute (sunrise_time this) <? minute datetime_now then false else true)
  else if hour datetime_now =? hour (sunset_time this) then
    (if minute datetime_now <? minute (sunset_time this) then false else true)
  else true.

(** Python's [==] on setting values: [True] and [False] equal the
    numbers 1 and 0, values of different kinds are unequal otherwise. *)
Definition setting_eqb (a b : setting) : bool :=
  match a, b with
  | SNone, SNone => true
  | SBool x, SBool y => Bool.eqb x y
  | SNumber x, SNumber y => x =? y
  | SBool x, SNumber y => y =? (if x then 1 else 0)
  | SNumber x, SBool y => x =? (if y then 1 else 0)
  | SString x, SString y => String.eqb x y
  | _, _ => false
  end.

(** A settings object as [sublime.load_settings] returns it: the keys
    that are set, with their values. *)
Definition settings_file : Type := string -> option setting.

(** [settings.get(key, default)] and [settings.set(key, value)]. *)
Definition file_get (f : settings_file) (key : string) (default : setting) : setting :=
  match f key with
  | Some v => v
  | None => default
  end.

Definition file_set (f : settings_file) (key : string) (v : setting) : settings_file :=
  fun k => if String.eqb k key then Some v else f k.

(** [settings.get(key)]: the default is [None]. *)
Definition loaded (f : settings_file) : settings :=
  fun key => file_get f key SNone.

(** The lines [print] writes. *)
Inductive printed : Type :=
| SwitchingScheme (desired : setting)  (* "Switching to new colour scheme: %s" *)
| SwitchingTheme (desired : setting).  (* "Switching to new window theme: %s" *)

(** One [if desired: ...] block of [changeScheme] (lines 240-244 and
    245-249): the preferences after it and what it printed. *)
Definition change_key (key : string) (line : setting -> printed)
  (prefs : settings_file) (desired : setting) : settings_file * list printed :=
  if truthy desired then
    let current := file_get prefs key SNone in
    if negb (setting_eqb current desired) then
      (file_set prefs key desired, [line desired])
    else (prefs, [])
  else (prefs, []).

(** [changeScheme] (lines 238-249) on the Preferences object. *)
Definition changeScheme (prefs : settings_file) (desiredScheme desiredTheme : setting)
  : settings_file * list printed :=
  let '(prefs, out1) := change_key "color_scheme" SwitchingScheme prefs desiredScheme in
  let '(prefs, out2) := change_key "theme" SwitchingTheme prefs desiredTheme in
  (prefs, out1 ++ out2).

(** [setCorrectScheme] (lines 276-284): [file] is the plugin's settings
    object, [datetime_now] the clock reading [isItDark] takes. *)
Definition setCorrectScheme (this : SunThemeSwitcher) (file : settings_file)
  (datetime_now : datetime) (prefs : settings_file) : settings_file * list printed :=
  if isItDark this (loaded file) datetime_now then
    let correctScheme := file_get file "nightColourScheme" (SString "") in
    let correctTheme := file_get file "nightWindowTheme" (SString "") in
    changeScheme prefs correctScheme correctTheme
  else
    let correctScheme := file_get file "dayColourScheme" (SString "") in
    let correctTheme := file_get file "dayWindowTheme" (SString "") in
    changeScheme prefs correctScheme correctTheme.

(** What the host holds for the plugin: the timeouts registered with
    [sublime.set_timeout] and not yet fired (their delays), the
    Preferences object, and the console. *)
Record host : Type := mkhost {
  timeouts : list Z;
  preferences : settings_file;
  console : list printed
}.

(** [run] (lines 286-288): registers itself again, then sets the
    scheme. *)
Definition run (this : SunThemeSwitcher) (checkDelay : Z) (file : settings_file)
  (datetime_now : datetime) (h : host) : host :=
  let timeouts := timeouts h ++ [checkDelay] in
  let '(prefs, out) := setCorrectScheme this file datetime_now (preferences h) in
  mkhost timeouts prefs (console h ++ out).

(** The host fires the oldest timeout: it is dropped and [run] is
    called; nothing happens when none is registered. *)
Definition fire (this : SunThemeSwitcher) (checkDelay : Z) (file : settings_file)
  (datetime_now : datetime) (h : host) : host :=
  match timeouts h with
  | [] => h
  | _ :: rest =>
    run this checkDelay file datetime_now
      (mkhost rest (preferences h) (console h))
  end.

(** The plugin's life: the first [run] at load time, then one firing
    per entry of [ticks], each with the settings file and the clock
    reading of its moment. *)
Fixpoint fire_all (this : SunThemeSwitcher) (checkDelay : Z)
  (ticks : list (settings_file * datetime)) (h : host) : host :=
  match ticks with
  | [] => h
  | (file, datetime_now) :: ticks' =>
    fire_all this checkDelay ticks' (fire this checkDelay file datetime_now h)
  end.

(** ** Notions used to state the properties *)

Local Open Scope Z_scope.

(** A calendar date: a month of the year and a day of that month. *)
Definition valid_date (y m d : Z) : Prop :=
  1 <= m <= 12 /\ 1 <= d <= days_in_month y m.

(** Timestamps a [datetime] can hold: 0001-01-01T00:00:00 up to the
    last microsecond of year 9999. *)
Definition representable (t : Z) : bool :=
  (0 <=? t) && (t <? MAXORDINAL * US_PER_DAY).

Definition aware (dt : datetime) : bool :=
  match tzinfo dt with Some _ => true | None => false end.

(** The number a finite double stands for, as a fraction. *)
Definition float_value (x : float) : Q :=
  match FloatOps.Prim2SF x with
  | SpecFloat.S754_finite s m e =>
    let a := if 0 <=? e then inject_Z (Zpos m * 2 ^ e)
             else Qmake (Zpos m) (Z.to_pos (2 ^ (- e))) in
    if s then Qopp a else a
  | _ => inject_Z 0
  end.

Definition number_value (c : number) : Q :=
  match c with
  | PyInt n => inject_Z n
  | PyFloat x => float_value x
  end.

(** [c >= 0]. *)
Definition number_nonneg (c : number) : bool :=
  match c with
  | PyInt n => 0 <=? n
  | PyFloat x => (0.0 <=? x)%float
  end.

(** The instant a datetime denotes: its timestamp moved to UTC,
    in microseconds. *)
Definition utc_instant (dt : datetime) : Z :=
  timestamp dt - 60000000 * match tzinfo dt with Some off => off | None => 0 end.

(** Days by which the UTC calendar date is ahead of the local one. *)
Definition utc_day_carry (dt : datetime) : Z :=
  match tzinfo dt with
  | Some off => (hour dt * 60 + minute dt - off) / 1440
  | None => 0
  end.

(** States the loop passes through: [loop_reach body k st] when [st] is
    the state after [k] rounds. *)
Inductive loop_reach (body : loop_state -> result loop_state)
  : nat -> loop_state -> Prop :=
| reach_init : loop_reach body 0 loop_init
| reach_round k st st' :
    loop_reach body k st -> loop_guard st = true -> body st = Ok st' ->
    loop_reach body (S k) st'.

(** What every state of the loop satisfies. *)
Definition loop_inv (st : loop_state) : Prop := (0 <= utnew st < 2 * PI)%R.

Definition accepted (date : datetime) (lat : R) (zenith : string) : Prop :=
  valid_datetime date = true /\ aware date = true /\
  dict_contains ZENITH zenith = true /\ (Rabs lat <= 63)%R.

Definition same_day_and_zone (a b : datetime) : Prop :=
  year a = year b /\ month a = month b /\ day a = day b /\ tzinfo a = tzinfo b.

(** The solver the constructor hands to [__determineRiseSet]. *)
Definition solver_of (date : datetime) (lat lon : R) (zenith : string) : solver :=
  mksolver date lat lon zenith (offsetUTC_of date).

(** A decision procedure for properties of all integers of a range
    [lo, lo + len), by halving. *)
Fixpoint forall_range (fuel : nat) (lo len : Z) (p : Z -> bool) : bool :=
  match fuel with
  | O => (len <=? 0) || ((len =? 1) && p lo)
  | S f =>
    if len <=? 1 then (len <=? 0) || p lo
    else
      let h := len / 2 in
      forall_range f lo h p && forall_range f (lo + h) (len - h) p
  end.

(** What [ord2ymd_cycle] must return for day [r] of the 400-year cycle. *)
Definition cycle_day_ok (r : Z) : bool :=
  let '(y, m, d) := ord2ymd_cycle r in
  (1 <=? y) && (y <=? 400) && (1 <=? m) && (m <=? 12) &&
  (1 <=? d) && (d <=? days_in_month y m) && (ymd2ord y m d =? r + 1).

(** The 24-hour correction of lines 177-180 on the adjusted decimal
    hour. *)
Definition wrap24 (x : R) : R :=
  if Rlt_dec x 0.0 then (x + 24.0)%R
  else if Rgt_dec x 24.0 then (x - 24.0)%R
  else x.

(** What the day count of line 95 must be for month [1 + i mod 12] of
    year [1901 + i / 12], against the calendar. *)
Definition day_count_ok (i : Z) : bool :=
  let y := (1901 + i / 12)%Z in
  let m := (1 + i mod 12)%Z in
  (367 * y - 7 * (y + (m + 9) / 12) / 4 + 275 * m / 9 - 411
   =? ymd2ord y m 0)%Z.

(** Minutes since midnight of the hour and minute fields. *)
Definition minute_of_day (dt : datetime) : Z := hour dt * 60 + minute dt.

(** ** Concrete inputs used in the examples *)

(** A naive wall-clock reading on 2020-06-21. *)
Definition clock (h mi : Z) : datetime :=
  mkdatetime 2020 6 21 h mi 0 0 None.

(** Sunrise 06:00, sunset 18:00. *)
Definition six_to_six : SunThemeSwitcher :=
  mkSunThemeSwitcher (clock 6 0) (clock 18 0).

(** Settings with both force switches off. *)
Definition no_force : settings := fun _ => SNone.

(** Settings with one or both force switches on. *)
Definition force_night_on : settings :=
  fun k => if String.eqb k "forceNight" then SBool true else SNone.

Definition force_day_on : settings :=
  fun k => if String.eqb k "forceDay" then SBool true else SNone.

Definition force_both_on : settings :=
  fun k => if String.eqb k "forceNight" then SBool true
           else if String.eqb k "forceDay" then SNumber 1 else SNone.

(** An aware wall-clock reading on 2020-06-21, ten hours east of UTC. *)
Definition local_clock (h mi : Z) : datetime :=
  mkdatetime 2020 6 21 h mi 0 0 (Some 600).

(** A constructed [SunriseSunset] object holding the given instants. *)
Definition events_at (now rise set : datetime) : SunriseSunset :=
  mkSunriseSunset (solver_of now 40.7%R (-74.0)%R "official") rise set.

(** An aware reading of that day to the microsecond. *)
Definition local_instant (h mi s us : Z) : datetime :=
  mkdatetime 2020 6 21 h mi s us (Some 600).

(** The first minutes of year 1, at UTC. *)
Definition year_one (h mi : Z) : datetime :=
  mkdatetime 1 1 1 h mi 0 0 (Some 0).

(** An accepted solver: 2020-06-21 noon at UTC+10:00, latitude 40.7. *)
Definition sample_solver : solver :=
  solver_of (local_clock 12 0) 40.7%R (-74.0)%R "official".


(** The sunrise estimate after the first round at longitude 0. *)
Definition first_estimate (ephem2000Day sinAlt sinPhi cosPhi : R) : R :=
  match loop_body ephem2000Day sinAlt sinPhi cosPhi 0%R 1%R loop_init with
  | Ok st => utnew st
  | Err _ => 0%R
  end.

(** 2020-06-21 noon, at UTC. *)
Definition utc_noon : datetime := mkdatetime 2020 6 21 12 0 0 0 (Some 0).

(** A longitude (in degrees) at which the first round estimates the
    sunrise of [utc_noon] at latitude 0 at the hour angle [theta]. *)
Definition landing_longitude (theta : R) : R :=
  degrees (first_estimate (ephem2000Day_of 2020 6 21)
             (sin (radians (-0.833))) (sin (radians 0)) (cos (radians 0))
           - theta)%R.

(** The solver of [utc_noon] at latitude 0 and that longitude. *)
Definition landing_solver (theta : R) : solver :=
  solver_of utc_noon 0%R (landing_longitude theta) "official".

(** The hour angles of 00:00:00.99999975 UTC and of 00:00:01.5 UTC. *)
Definition unlucky_angle : R := radians (15 * (0.99999975 / 3600))%R.
Definition lucky_angle : R := radians (15 * (1.5 / 3600))%R.

Definition unlucky_longitude : R := landing_longitude unlucky_angle.

(** The last minutes of year 9999, at UTC. *)
Definition last_year (h mi : Z) : datetime :=
  mkdatetime 9999 12 31 h mi 0 0 (Some 0).

(** Preferences with nothing set, and a plugin settings file with the
    four scheme keys. *)
Definition no_preferences : settings_file := fun _ => None.

Definition sample_file : settings_file :=
  fun k =>
    if String.eqb k "nightColourScheme" then Some (SString "Night.tmTheme")
    else if String.eqb k "nightWindowTheme" then Some (SString "Night.sublime-theme")
    else if String.eqb k "dayColourScheme" then Some (SString "Day.tmTheme")
    else if String.eqb k "dayWindowTheme" then Some (SString "Day.sublime-theme")
    else None.

(** * Properties *)

(** ** The classifier of the theme switcher *)

Section Classifier.

Local Open Scope Z_scope.

Variable this : SunThemeSwitcher.
Variable conf : settings.
Variable now : datetime.

Lemma isItDark_forceNight :
  truthy (conf "forceNight"%string) = true -> isItDark this conf now = true.
Proof. intros H. unfold isItDark. now rewrite H. Qed.

Lemma isItDark_forceDay :
  truthy (conf "forceNight"%string) = false ->
  truthy (conf "forceDay"%string) = true ->
  isItDark this conf now = false.
Proof. intros H1 H2. unfold isItDark. now rewrite H1, H2. Qed.

Hypothesis unforced_night : truthy (conf "forceNight"%string) = false.
Hypothesis unforced_day : truthy (conf "forceDay"%string) = false.

(** In the hour and minute of sunrise the switcher still reports
    night: day starts with the next minute. *)
Lemma isItDark_sunrise_minute :
  hour now = hour (sunrise_time this) ->
  minute now = minute (sunrise_time this) ->
  isItDark this conf now = true.
Proof.
  intros Hh Hm. unfold isItDark.
  rewrite unforced_night, unforced_day, Hh, Hm.
  rewrite !Z.ltb_irrefl, Z.eqb_refl. reflexivity.
Qed.

(** In the hour and minute of sunset it already reports night (when
    sunrise falls in another hour). *)
Lemma isItDark_sunset_minute :
  hour now = hour (sunset_time this) ->
  minute now = minute (sunset_time this) ->
  hour (sunrise_time this) <> hour (sunset_time this) ->
  isItDark this conf now = true.
Proof.
  intros Hh Hm Hne. unfold isItDark.
  rewrite unforced_night, unforced_day, Hh, Hm.
  rewrite !Z.ltb_irrefl, Z.eqb_refl, andb_false_r.
  destruct (Z.eqb_spec (hour (sunrise_time this)) (hour (sunset_time this)));
    [contradiction | reflexivity].
Qed.

End Classifier.

(** C8: with [forceNight] set [isItDark] answers night whatever the
    stored sunrise and sunset and whatever the clock reads; with
    [forceDay] set and [forceNight] not set it answers day; with both
    set [forceNight] wins and the answer is night. *)
Theorem C8_force_switches_override :
  forall (this : SunThemeSwitcher) (conf : settings) (now : datetime),
    (truthy (conf "forceNight"%string) = true ->
       isItDark this conf now = true) /\
    (truthy (conf "forceDay"%string) = true ->
     truthy (conf "forceNight"%string) = false ->
       isItDark this conf now = false) /\
    (truthy (conf "forceNight"%string) = true ->
     truthy (conf "forceDay"%string) = true ->
       isItDark this conf now = true).
Proof.
  intros this conf now. split; [| split].
  - apply isItDark_forceNight.
  - intros Hd Hn. now apply isItDark_forceDay.
  - intros Hn _. now apply isItDark_forceNight.
Qed.

Lemma C8_force_switches_override_witness :
  isItDark six_to_six force_night_on (clock 12 0) = true /\
  isItDark six_to_six force_day_on (clock 0 0) = false /\
  isItDark six_to_six force_both_on (clock 12 0) = true.
Proof.
  split; [| split].
  - apply (proj1 (C8_force_switches_override six_to_six force_night_on (clock 12 0))).
    reflexivity.
  - apply (proj1 (proj2 (C8_force_switches_override six_to_six force_day_on (clock 0 0))));
      reflexivity.
  - apply (proj2 (proj2 (C8_force_switches_override six_to_six force_both_on (clock 12 0))));
      reflexivity.
Defined.

(** C4, as the claim states it, fails: with sunrise 06:00 and sunset
    18:00 and no force switch, [isItDark] does not give night at 05:00,
    day at 12:00, night at 19:00, day at 06:00 and day at 18:00 -- at
    06:00 and at 18:00 it gives night. *)
Lemma C4_counterexample :
  ~ (isItDark six_to_six no_force (clock 5 0) = true /\
     isItDark six_to_six no_force (clock 12 0) = false /\
     isItDark six_to_six no_force (clock 19 0) = true /\
     isItDark six_to_six no_force (clock 6 0) = false /\
     isItDark six_to_six no_force (clock 18 0) = false).
Proof. intros (_ & _ & _ & H & _). discriminate H. Qed.

(** C4, amended: with both force switches off, sunrise at 06:00 and
    sunset at 18:00, [isItDark] classifies 05:00 as night, 12:00 as day,
    19:00 as night, and both exactly 06:00 and exactly 18:00 as night:
    the minute of sunrise still counts as night and the minute of sunset
    already does. Only the hour and minute fields are read. *)
Theorem C4_isItDark_six_to_six :
  forall (this : SunThemeSwitcher) (conf : settings) (now : datetime),
    truthy (conf "forceNight"%string) = false ->
    truthy (conf "forceDay"%string) = false ->
    hour (sunrise_time this) = 6%Z -> minute (sunrise_time this) = 0%Z ->
    hour (sunset_time this) = 18%Z -> minute (sunset_time this) = 0%Z ->
    (hour now = 5%Z -> minute now = 0%Z -> isItDark this conf now = true) /\
    (hour now = 12%Z -> minute now = 0%Z -> isItDark this conf now = false) /\
    (hour now = 19%Z -> minute now = 0%Z -> isItDark this conf now = true) /\
    (hour now = 6%Z -> minute now = 0%Z -> isItDark this conf now = true) /\
    (hour now = 18%Z -> minute now = 0%Z -> isItDark this conf now = true).
Proof.
  intros this conf now Hn Hd Hrh Hrm Hsh Hsm.
  unfold isItDark. rewrite Hn, Hd, Hrh, Hrm, Hsh, Hsm.
  split; [| split; [| split; [| split]]];
    intros Hh Hm; rewrite Hh, Hm; reflexivity.
Qed.

Lemma C4_isItDark_six_to_six_witness :
  isItDark six_to_six no_force (clock 5 0) = true /\
  isItDark six_to_six no_force (clock 12 0) = false /\
  isItDark six_to_six no_force (clock 19 0) = true /\
  isItDark six_to_six no_force (clock 6 0) = true /\
  isItDark six_to_six no_force (clock 18 0) = true.
Proof.
  pose proof (fun now =>
    C4_isItDark_six_to_six six_to_six no_force now
      eq_refl eq_refl eq_refl eq_refl eq_refl eq_refl) as H.
  split; [| split; [| split; [| split]]].
  - apply (proj1 (H (clock 5 0))); reflexivity.
  - apply (proj1 (proj2 (H (clock 12 0)))); reflexivity.
  - apply (proj1 (proj2 (proj2 (H (clock 19 0))))); reflexivity.
  - apply (proj1 (proj2 (proj2 (proj2 (H (clock 6 0)))))); reflexivity.
  - apply (proj2 (proj2 (proj2 (proj2 (H (clock 18 0)))))); reflexivity.
Defined.

(** ** The calendar of the [datetime] library *)

Lemma forall_range_spec (fuel : nat) (p : Z -> bool) :
  forall lo len, forall_range fuel lo len p = true ->
  forall z, lo <= z < lo + len -> p z = true.
Proof.
  induction fuel as [|f IH]; intros lo len H z Hz; simpl in H.
  - apply orb_true_iff in H. destruct H as [H|H].
    + apply Z.leb_le in H. lia.
    + apply andb_true_iff in H. destruct H as [H1 H2].
      apply Z.eqb_eq in H1. replace z with lo by lia. exact H2.
  - destruct (Z.leb_spec len 1) as [Hl|Hl].
    + apply orb_true_iff in H. destruct H as [H|H].
      * apply Z.leb_le in H. lia.
      * replace z with lo by lia. exact H.
    + apply andb_true_iff in H. destruct H as [H1 H2].
      assert (0 < len / 2 < len) by (split; [apply Z.div_str_pos | apply Z.div_lt]; lia).
      destruct (Z.lt_ge_cases z (lo + len / 2)).
      * apply (IH _ _ H1). lia.
      * apply (IH _ _ H2). lia.
Qed.

Lemma cycle_checked : forall_range 18 0 DI400Y cycle_day_ok = true.
Proof. vm_compute. reflexivity. Qed.

Lemma is_leap_shift (q y : Z) : is_leap (q * 400 + y) = is_leap y.
Proof.
  unfold is_leap.
  replace (q * 400 + y) with (y + (q * 100) * 4) at 1 by ring.
  replace (q * 400 + y) with (y + (q * 4) * 100) at 1 by ring.
  replace (q * 400 + y) with (y + q * 400) by ring.
  now rewrite !Z_mod_plus_full.
Qed.

Lemma days_before_year_shift (q y : Z) :
  days_before_year (q * 400 + y) = q * DI400Y + days_before_year y.
Proof.
  unfold days_before_year, DI400Y. cbv zeta.
  replace (q * 400 + y - 1) with (y - 1 + q * 400) by ring.
  replace ((y - 1 + q * 400) / 4) with ((y - 1) / 4 + q * 100)
    by (replace (q * 400) with (q * 100 * 4) by ring; now rewrite Z_div_plus_full).
  replace ((y - 1 + q * 400) / 100) with ((y - 1) / 100 + q * 4)
    by (replace (q * 400) with (q * 4 * 100) by ring; now rewrite Z_div_plus_full).
  rewrite Z_div_plus_full by lia. ring.
Qed.

Lemma ymd2ord_shift (q y m d : Z) :
  ymd2ord (q * 400 + y) m d = q * DI400Y + ymd2ord y m d.
Proof.
  unfold ymd2ord, days_before_month.
  rewrite days_before_year_shift, is_leap_shift. ring.
Qed.

(** [_ord2ymd] inverts [_ymd2ord], and lands on a calendar date. *)
Lemma ord2ymd_spec (n : Z) :
  forall y m d, ord2ymd n = (y, m, d) ->
  ymd2ord y m d = n /\ 1 <= m <= 12 /\ 1 <= d <= days_in_month y m.
Proof.
  intros y m d. unfold ord2ymd. cbv zeta.
  pose proof (Z.mod_pos_bound (n - 1) DI400Y eq_refl) as Hr.
  pose proof (forall_range_spec _ _ _ _ cycle_checked _ (conj (proj1 Hr) (proj2 Hr))) as Hc.
  unfold cycle_day_ok in Hc.
  destruct (ord2ymd_cycle ((n - 1) mod DI400Y)) as [[y' m'] d'].
  intros E. injection E as <- <- <-.
  rewrite !andb_true_iff in Hc.
  destruct Hc as ((((((H1 & H2) & H3) & H4) & H5) & H6) & H7).
  apply Z.leb_le in H1, H2, H3, H4, H5, H6. apply Z.eqb_eq in H7.
  rewrite ymd2ord_shift, H7. unfold days_in_month in *. rewrite is_leap_shift.
  pose proof (Z.div_mod (n - 1) DI400Y ltac:(discriminate)).
  lia.
Qed.

Lemma ord2ymd_year_cycle (n : Z) :
  forall y m d, ord2ymd n = (y, m, d) ->
  (n - 1) / DI400Y * 400 + 1 <= y <= (n - 1) / DI400Y * 400 + 400.
Proof.
  intros y m d. unfold ord2ymd. cbv zeta.
  pose proof (Z.mod_pos_bound (n - 1) DI400Y eq_refl) as Hr.
  pose proof (forall_range_spec _ _ _ _ cycle_checked _ (conj (proj1 Hr) (proj2 Hr))) as Hc.
  unfold cycle_day_ok in Hc.
  destruct (ord2ymd_cycle ((n - 1) mod DI400Y)) as [[y' m'] d'].
  intros E. injection E as <- <- <-.
  rewrite !andb_true_iff in Hc.
  destruct Hc as ((((((H1 & H2) & H3) & H4) & H5) & H6) & H7).
  apply Z.leb_le in H1, H2. lia.
Qed.

(** Leap years by the difference of the day counts. *)
Lemma days_before_year_succ (y : Z) :
  days_before_year (y + 1) = days_before_year y + 365 + (if is_leap y then 1 else 0).
Proof.
  unfold days_before_year, is_leap. cbv zeta.
  replace (y + 1 - 1) with y by ring.
  destruct (Z.eqb_spec (y mod 4) 0); destruct (Z.eqb_spec (y mod 100) 0);
    destruct (Z.eqb_spec (y mod 400) 0); cbn [negb orb andb];
    Z.to_euclidean_division_equations; lia.
Qed.

Lemma days_before_year_mono (y1 y2 : Z) :
  y1 <= y2 -> days_before_year y1 <= days_before_year y2.
Proof.
  intros H. unfold days_before_year. cbv zeta.
  Z.to_euclidean_division_equations. lia.
Qed.

Lemma month_cases (m : Z) :
  1 <= m <= 12 ->
  m = 1 \/ m = 2 \/ m = 3 \/ m = 4 \/ m = 5 \/ m = 6 \/
  m = 7 \/ m = 8 \/ m = 9 \/ m = 10 \/ m = 11 \/ m = 12.
Proof. lia. Qed.

Ltac eval_month_tables :=
  repeat match goal with
  | |- context [days_before_month_flag ?b ?m] =>
    let v := eval vm_compute in (days_before_month_flag b m) in
    change (days_before_month_flag b m) with v
  | |- context [days_in_month_flag ?b ?m] =>
    let v := eval vm_compute in (days_in_month_flag b m) in
    change (days_in_month_flag b m) with v
  | H : context [days_in_month_flag ?b ?m] |- _ =>
    let v := eval vm_compute in (days_in_month_flag b m) in
    change (days_in_month_flag b m) with v in H
  end.

Lemma days_before_month_next (leap : bool) (m1 m2 : Z) :
  1 <= m1 -> m1 < m2 -> m2 <= 12 ->
  days_before_month_flag leap m1 + days_in_month_flag leap m1
  <= days_before_month_flag leap m2.
Proof.
  intros H1 H2 H3.
  assert (C1 : 1 <= m1 <= 12) by lia. assert (C2 : 1 <= m2 <= 12) by lia.
  apply month_cases in C1, C2.
  destruct leap;
    repeat (destruct C1 as [C1|C1]); subst m1;
    repeat (destruct C2 as [C2|C2]); subst m2;
    eval_month_tables; lia.
Qed.

Lemma days_in_year_bound (leap : bool) (m d : Z) :
  1 <= m <= 12 -> 1 <= d <= days_in_month_flag leap m ->
  1 <= days_before_month_flag leap m + d <= 365 + (if leap then 1 else 0).
Proof.
  intros C1 Hd. apply month_cases in C1.
  destruct leap; repeat (destruct C1 as [C1|C1]); subst m;
    eval_month_tables; lia.
Qed.

(** The ordinal grows with the date. *)
Lemma ymd2ord_lt (y1 m1 d1 y2 m2 d2 : Z) :
  valid_date y1 m1 d1 -> valid_date y2 m2 d2 ->
  y1 < y2 \/ (y1 = y2 /\ (m1 < m2 \/ (m1 = m2 /\ d1 < d2))) ->
  ymd2ord y1 m1 d1 < ymd2ord y2 m2 d2.
Proof.
  intros [Hm1 Hd1] [Hm2 Hd2] H. unfold ymd2ord, days_before_month, days_in_month in *.
  destruct H as [H|[-> [H|[-> H]]]].
  - pose proof (days_in_year_bound _ _ _ Hm1 Hd1).
    pose proof (days_in_year_bound _ _ _ Hm2 Hd2).
    pose proof (days_before_year_succ y1).
    pose proof (days_before_year_mono (y1 + 1) y2 ltac:(lia)).
    lia.
  - pose proof (days_before_month_next (is_leap y2) m1 m2). lia.
  - lia.
Qed.

(** *** Datetimes on the time line *)

Lemma valid_datetime_fields (dt : datetime) :
  valid_datetime dt = true ->
  (1 <= year dt <= 9999) /\ valid_date (year dt) (month dt) (day dt) /\
  (0 <= hour dt < 24) /\ (0 <= minute dt < 60) /\ (0 <= second dt < 60) /\
  (0 <= microsecond dt < 1000000) /\ valid_tzinfo (tzinfo dt) = true.
Proof.
  unfold valid_datetime, valid_date, MINYEAR, MAXYEAR.
  rewrite !andb_true_iff, !Z.leb_le, !Z.ltb_lt. tauto.
Qed.

Lemma time_of_day_bound (dt : datetime) :
  valid_datetime dt = true -> 0 <= time_of_day dt < US_PER_DAY.
Proof.
  intros H. apply valid_datetime_fields in H.
  unfold time_of_day, US_PER_DAY. lia.
Qed.

(** Comparing the fields is comparing the timestamps. *)
Lemma cmp_fields_timestamp (a b : datetime) :
  valid_datetime a = true -> valid_datetime b = true ->
  cmp_fields a b = (timestamp a ?= timestamp b).
Proof.
  intros Ha Hb.
  apply valid_datetime_fields in Ha, Hb.
  destruct Ha as (_ & Da & Ha), Hb as (_ & Db & Hb).
  assert (Hlt : forall x y : datetime,
    valid_date (year x) (month x) (day x) ->
    valid_date (year y) (month y) (day y) ->
    year x < year y \/ (year x = year y /\ (month x < month y \/
      (month x = month y /\ day x < day y))) -> toordinal x < toordinal y).
  { intros x y Dx Dy. apply ymd2ord_lt; assumption. }
  pose proof (Hlt a b Da Db) as Hab. pose proof (Hlt b a Db Da) as Hba.
  symmetry. unfold cmp_fields, timestamp, time_of_day, US_PER_DAY in *.
  assert (Heq : year a = year b -> month a = month b -> day a = day b ->
                toordinal a = toordinal b).
  { unfold toordinal. now intros -> -> ->. }
  destruct (Z.compare_spec (year a) (year b));
    [destruct (Z.compare_spec (month a) (month b));
      [destruct (Z.compare_spec (day a) (day b));
        [destruct (Z.compare_spec (hour a) (hour b));
          [destruct (Z.compare_spec (minute a) (minute b));
            [destruct (Z.compare_spec (second a) (second b));
              [destruct (Z.compare_spec (microsecond a) (microsecond b)) | |]
            | |] | |] | |] | |] | |];
    first [apply Z.compare_eq_iff | apply Z.compare_lt_iff | apply Z.compare_gt_iff];
    lia.
Qed.

Lemma toordinal_bound (dt : datetime) :
  valid_datetime dt = true -> 1 <= toordinal dt <= MAXORDINAL.
Proof.
  intros H. apply valid_datetime_fields in H.
  destruct H as (Hy & [Hm Hd] & _).
  pose proof (days_in_year_bound _ _ _ Hm Hd).
  pose proof (days_before_year_mono 1 (year dt) ltac:(lia)) as Hlo.
  pose proof (days_before_year_mono (year dt + 1) 10000 ltac:(lia)) as Hhi.
  pose proof (days_before_year_succ (year dt)).
  change (days_before_year 1) with 0 in Hlo.
  change (days_before_year 10000) with 3652059 in Hhi.
  unfold toordinal, ymd2ord, days_before_month, MAXORDINAL.
  destruct (is_leap (year dt)); lia.
Qed.

Lemma timestamp_bound (dt : datetime) :
  valid_datetime dt = true -> representable (timestamp dt) = true.
Proof.
  intros H. pose proof (toordinal_bound dt H). pose proof (time_of_day_bound dt H).
  unfold representable. rewrite andb_true_iff, Z.leb_le, Z.ltb_lt.
  unfold timestamp, MAXORDINAL, US_PER_DAY in *. lia.
Qed.

Lemma datetime_add_spec (dt : datetime) (td : timedelta) :
  valid_datetime dt = true -> representable (timestamp dt + td) = true ->
  exists dt', datetime_add dt td = Ok dt' /\ valid_datetime dt' = true /\
              timestamp dt' = timestamp dt + td /\ tzinfo dt' = tzinfo dt.
Proof.
  intros Hv Hr. unfold datetime_add. cbv zeta.
  set (t := timestamp dt + td) in *.
  unfold representable in Hr. rewrite andb_true_iff, Z.leb_le, Z.ltb_lt in Hr.
  unfold MAXORDINAL, US_PER_DAY in Hr.
  assert (Ho : 1 <= t / US_PER_DAY + 1 <= MAXORDINAL).
  { unfold US_PER_DAY, MAXORDINAL. Z.to_euclidean_division_equations. lia. }
  destruct (Z.leb_spec 1 (t / US_PER_DAY + 1)); [| lia].
  destruct (Z.leb_spec (t / US_PER_DAY + 1) MAXORDINAL); [| lia].
  cbn [andb].
  destruct (ord2ymd (t / US_PER_DAY + 1)) as [[y m] d] eqn:E.
  destruct (ord2ymd_spec _ _ _ _ E) as (Hord & Hm & Hd).
  pose proof (ord2ymd_year_cycle _ _ _ _ E) as Hy.
  eexists. split; [reflexivity |].
  assert (Hyr : 1 <= y <= 9999).
  { split.
    - unfold DI400Y, MAXORDINAL in *. Z.to_euclidean_division_equations. lia.
    - destruct (Z.le_gt_cases y 9999) as [|Hbig]; [assumption | exfalso].
      pose proof (days_before_year_mono 10000 y ltac:(lia)) as Hmono.
      change (days_before_year 10000) with 3652059 in Hmono.
      pose proof (days_in_year_bound (is_leap y) m d Hm Hd).
      unfold ymd2ord, days_before_month, MAXORDINAL in *. lia. }
  pose proof (Z.mod_pos_bound t US_PER_DAY eq_refl) as Hrb.
  set (r := t mod US_PER_DAY) in *.
  split; [| split; [| apply valid_datetime_fields in Hv; reflexivity]].
  - unfold valid_datetime, MINYEAR, MAXYEAR. cbn [year month day hour minute second microsecond tzinfo].
    apply valid_datetime_fields in Hv. destruct Hv as (_ & _ & _ & _ & _ & _ & Htz).
    rewrite Htz.
    rewrite !andb_true_iff, !Z.leb_le, !Z.ltb_lt.
    unfold US_PER_DAY in Hrb.
    repeat split; try lia; try tauto;
      Z.to_euclidean_division_equations; lia.
  - unfold timestamp, toordinal, time_of_day.
    cbn [year month day hour minute second microsecond].
    rewrite Hord.
    pose proof (Z.div_mod t US_PER_DAY ltac:(discriminate)) as Hdm.
    fold r in Hdm.
    assert (((r / 3600000000 * 60 + r / 60000000 mod 60) * 60 + r / 1000000 mod 60) * 1000000
            + r mod 1000000 = r).
    { unfold US_PER_DAY in Hrb. Z.to_euclidean_division_equations. lia. }
    lia.
Qed.

Lemma datetime_gt_instant (a b : datetime) :
  valid_datetime a = true -> valid_datetime b = true -> aware a = true -> aware b = true ->
  datetime_gt a b = Ok (utc_instant b <? utc_instant a).
Proof.
  intros Va Vb Aa Ab. unfold datetime_gt, datetime_cmp, utc_instant, aware in *.
  destruct (tzinfo a) as [oa|]; [| discriminate].
  destruct (tzinfo b) as [ob|]; [| discriminate].
  destruct (Z.eqb_spec oa ob) as [->|Hne]; cbn [bind].
  - rewrite (cmp_fields_timestamp a b Va Vb).
    destruct (Z.compare_spec (timestamp a) (timestamp b));
      destruct (Z.ltb_spec (timestamp b - 60000000 * ob) (timestamp a - 60000000 * ob));
      try reflexivity; lia.
  - destruct (Z.compare_spec (timestamp a - oa * 60000000) (timestamp b - ob * 60000000));
      destruct (Z.ltb_spec (timestamp b - 60000000 * ob) (timestamp a - 60000000 * oa));
      try reflexivity; lia.
Qed.

Lemma timedelta_minutes_ok (c : Z) :
  0 <= c <= 1000000000000 -> timedelta_minutes c = Ok (c * 60000000).
Proof.
  intros H. unfold timedelta_minutes, minutes_to_microseconds, US_PER_DAY.
  cbn [bind].
  destruct (Z.leb_spec (Z.abs (c * 60000000 / 86400000000)) 999999999) as [|Hbig];
    [reflexivity | exfalso].
  revert Hbig. Z.to_euclidean_division_equations. lia.
Qed.

(** What [timedelta] holds for an int collar is the collar. *)
Lemma timedelta_minutes_int (n : Z) (delta : timedelta) :
  timedelta_minutes n = Ok delta -> delta = n * 60000000.
Proof.
  unfold timedelta_minutes, minutes_to_microseconds. cbn [bind].
  destruct (Z.abs (n * 60000000 / US_PER_DAY) <=? 999999999); [| discriminate].
  intros H. now injection H as <-.
Qed.

Section IsNight.

Variable o : SunriseSunset.
Variable collar : number.
Variable delta : timedelta.
Let now := dateLocal (self o).

Hypothesis valid_now : valid_datetime now = true.
Hypothesis valid_sunrise : valid_datetime (sunrise o) = true.
Hypothesis valid_sunset : valid_datetime (sunset o) = true.
Hypothesis aware_now : aware now = true.
Hypothesis aware_sunrise : aware (sunrise o) = true.
Hypothesis aware_sunset : aware (sunset o) = true.
Hypothesis collar_delta : timedelta_minutes collar = Ok delta.
Hypothesis early_representable : representable (timestamp (sunrise o) - delta) = true.
Hypothesis late_representable : representable (timestamp (sunset o) + delta) = true.

Lemma isNight_delta :
  isNight o collar =
  Ok ((utc_instant now <? utc_instant (sunrise o) - delta)
      || (utc_instant (sunset o) + delta <? utc_instant now)).
Proof.
  unfold isNight.
  rewrite collar_delta. cbn [bind].
  unfold datetime_sub.
  destruct (datetime_add_spec (sunrise o) (- delta) valid_sunrise)
    as (early & -> & Ve & Te & Ze).
  { replace (timestamp (sunrise o) + - delta) with (timestamp (sunrise o) - delta) by ring.
    exact early_representable. }
  cbn [bind].
  assert (Ae : aware early = true) by (unfold aware; rewrite Ze; exact aware_sunrise).
  rewrite (datetime_gt_instant early (dateLocal (self o)) Ve valid_now Ae aware_now).
  cbn [bind]. fold now.
  assert (Ie : utc_instant early = utc_instant (sunrise o) - delta).
  { unfold utc_instant. rewrite Te, Ze. ring. }
  rewrite Ie.
  destruct (utc_instant now <? utc_instant (sunrise o) - delta); [reflexivity |].
  destruct (datetime_add_spec (sunset o) delta valid_sunset late_representable)
    as (late & -> & Vl & Tl & Zl).
  cbn [bind].
  assert (Al : aware late = true) by (unfold aware; rewrite Zl; exact aware_sunset).
  rewrite (datetime_gt_instant now late valid_now Vl aware_now Al).
  cbn [bind orb]. fold now.
  assert (Il : utc_instant late = utc_instant (sunset o) + delta).
  { unfold utc_instant. rewrite Tl, Zl. ring. }
  now rewrite Il.
Qed.

End IsNight.

(** The same for a collar of whole minutes. *)
Lemma isNight_value (o : SunriseSunset) (collar : Z) :
  valid_datetime (dateLocal (self o)) = true ->
  valid_datetime (sunrise o) = true ->
  valid_datetime (sunset o) = true ->
  aware (dateLocal (self o)) = true ->
  aware (sunrise o) = true ->
  aware (sunset o) = true ->
  0 <= collar ->
  representable (timestamp (sunrise o) - collar * 60000000) = true ->
  representable (timestamp (sunset o) + collar * 60000000) = true ->
  isNight o collar =
  Ok ((utc_instant (dateLocal (self o)) <? utc_instant (sunrise o) - collar * 60000000)
      || (utc_instant (sunset o) + collar * 60000000 <? utc_instant (dateLocal (self o)))).
Proof.
  intros Vn Vr Vs An Ar As Hc He Hl.
  assert (Hr : 0 <= collar <= 1000000000000).
  { pose proof (timestamp_bound _ Vr) as Hb.
    unfold representable in Hb, He.
    rewrite andb_true_iff, Z.leb_le, Z.ltb_lt in Hb, He.
    unfold MAXORDINAL, US_PER_DAY in *. lia. }
  apply isNight_delta; try assumption.
  now apply timedelta_minutes_ok.
Qed.

(** C1, as the claim states it, fails three times.  With sunrise 19:30
    after sunset 10:30 (a longitude far from the configured time zone),
    collar 0 and now exactly at sunrise, [isNight] returns true, not
    false.  With sunrise 00:10 and sunset 00:20 on 0001-01-01, now 23:00
    and collar 30, now is later than sunset + collar, yet [isNight] does
    not return true: sunrise - collar is no datetime and the subtraction
    raises [OverflowError].  With the collar 2^-26 minutes (0.894
    microseconds, a float), sunrise 06:00 and now one microsecond
    before it, now is earlier than sunrise - collar, yet [isNight]
    returns false: [timedelta] holds the collar as 1 microsecond. *)
Lemma C1_counterexample :
  (dateLocal (self (events_at (local_clock 19 30) (local_clock 19 30) (local_clock 10 30)))
     = sunrise (events_at (local_clock 19 30) (local_clock 19 30) (local_clock 10 30)) /\
   isNight (events_at (local_clock 19 30) (local_clock 19 30) (local_clock 10 30)) 0
     = Ok true) /\
  (utc_instant (year_one 23 0) > utc_instant (year_one 0 20) + 30 * 60000000 /\
   isNight (events_at (year_one 23 0) (year_one 0 10) (year_one 0 20)) 30
     = Err OverflowError) /\
  (Qlt (inject_Z (utc_instant (local_instant 5 59 59 999999)))
       (inject_Z (utc_instant (local_clock 6 0))
        - number_value (PyFloat 0x1p-26) * inject_Z 60000000)%Q /\
   isNight (events_at (local_instant 5 59 59 999999) (local_clock 6 0) (local_clock 18 0))
     (PyFloat 0x1p-26)
     = Ok false).
Proof.
  split; [split | split; [split | split]].
  - reflexivity.
  - vm_compute. reflexivity.
  - vm_compute. reflexivity.
  - vm_compute. reflexivity.
  - vm_compute. reflexivity.
  - vm_compute. reflexivity.
Qed.

(** C1, amended: for every sunrise, sunset and timezone-aware now held
    by a [SunriseSunset] object and every collar >= 0, an int or a
    float, let delta be the collar as [timedelta(minutes=collar)] holds
    it: a whole number of microseconds, exactly the collar when it is an
    int, a float collar rounded.  Whenever sunrise - delta and
    sunset + delta are still datetimes (years 1 to 9999), [isNight]
    returns true if and only if now < sunrise - delta or
    now > sunset + delta, the three compared as full instants (date and
    time of day, to the microsecond); with delta = 0 and sunrise not
    after sunset, at now equal to sunrise or equal to sunset it returns
    false. *)
Theorem C1_isNight_full_timestamps :
  forall (o : SunriseSunset) (collar : number) (delta : timedelta),
    valid_datetime (dateLocal (self o)) = true ->
    valid_datetime (sunrise o) = true ->
    valid_datetime (sunset o) = true ->
    aware (dateLocal (self o)) = true ->
    aware (sunrise o) = true ->
    aware (sunset o) = true ->
    number_nonneg collar = true ->
    timedelta_minutes collar = Ok delta ->
    representable (timestamp (sunrise o) - delta) = true ->
    representable (timestamp (sunset o) + delta) = true ->
    (forall n : Z, collar = PyInt n -> delta = n * 60000000) /\
    (exists b : bool,
       isNight o collar = Ok b /\
       (b = true <->
        utc_instant (dateLocal (self o)) < utc_instant (sunrise o) - delta \/
        utc_instant (dateLocal (self o)) > utc_instant (sunset o) + delta)) /\
    (delta = 0 ->
     utc_instant (sunrise o) <= utc_instant (sunset o) ->
     utc_instant (dateLocal (self o)) = utc_instant (sunrise o) \/
     utc_instant (dateLocal (self o)) = utc_instant (sunset o) ->
     isNight o collar = Ok false).
Proof.
  intros o collar delta Vn Vr Vs An Ar As _ Hd Hr Hs.
  pose proof (isNight_delta o collar delta Vn Vr Vs An Ar As Hd Hr Hs) as Hv.
  split; [| split].
  - intros n ->. now apply timedelta_minutes_int.
  - eexists. split; [exact Hv |].
    rewrite orb_true_iff, !Z.ltb_lt. lia.
  - intros -> Hle Hat. rewrite Hv. f_equal.
    apply orb_false_iff. rewrite !Z.ltb_ge. lia.
Qed.

Lemma C1_isNight_full_timestamps_witness :
  isNight (events_at (local_clock 5 45) (local_clock 6 0) (local_clock 18 0)) 30 = Ok false /\
  isNight (events_at (local_clock 6 0) (local_clock 6 0) (local_clock 18 0)) 0 = Ok false /\
  isNight (events_at (local_clock 18 1) (local_clock 6 0) (local_clock 18 0))
    (PyFloat 0.5) = Ok true.
Proof.
  split; [| split].
  - destruct (proj1 (proj2 (C1_isNight_full_timestamps
        (events_at (local_clock 5 45) (local_clock 6 0) (local_clock 18 0)) 30 1800000000
        eq_refl eq_refl eq_refl eq_refl eq_refl eq_refl eq_refl eq_refl eq_refl eq_refl)))
      as (b & Hb & Hiff).
    rewrite Hb. destruct b; [| reflexivity].
    exfalso. destruct (proj1 Hiff eq_refl) as [H|H]; vm_compute in H; discriminate H.
  - apply (proj2 (proj2 (C1_isNight_full_timestamps
        (events_at (local_clock 6 0) (local_clock 6 0) (local_clock 18 0)) 0 0
        eq_refl eq_refl eq_refl eq_refl eq_refl eq_refl eq_refl eq_refl eq_refl eq_refl))).
    + reflexivity.
    + vm_compute. discriminate.
    + left. reflexivity.
  - destruct (proj1 (proj2 (C1_isNight_full_timestamps
        (events_at (local_clock 18 1) (local_clock 6 0) (local_clock 18 0))
        (PyFloat 0.5) 30000000
        eq_refl eq_refl eq_refl eq_refl eq_refl eq_refl eq_refl eq_refl eq_refl eq_refl)))
      as (b & Hb & Hiff).
    rewrite Hb. f_equal. apply Hiff. right. vm_compute. reflexivity.
Defined.

(** ** Truncation and the angle reduction *)

Section AngleReduction.

Local Open Scope R_scope.

Lemma int_nonneg (x : R) : 0 <= x -> IZR (int x) <= x < IZR (int x) + 1.
Proof.
  intros Hx. unfold int. destruct (Rle_dec 0 x) as [_|Hn]; [| contradiction].
  destruct (base_Int_part x) as [H1 H2]. lra.
Qed.

Lemma int_neg (x : R) : x < 0 -> x <= IZR (int x) < x + 1.
Proof.
  intros Hx. unfold int. destruct (Rle_dec 0 x) as [Hn|_]; [lra |].
  destruct (base_Int_part (- x)) as [H1 H2]. rewrite opp_IZR. lra.
Qed.

Lemma int_unique_nonneg (x : R) (z : Z) : 0 <= x -> IZR z <= x < IZR z + 1 -> int x = z.
Proof.
  intros Hx Hz. unfold int. destruct (Rle_dec 0 x) as [_|Hn]; [| contradiction].
  symmetry. apply Int_part_spec. lra.
Qed.

Lemma int_unique_neg (x : R) (z : Z) : x < 0 -> x <= IZR z < x + 1 -> int x = z.
Proof.
  intros Hx Hz. unfold int. destruct (Rle_dec 0 x) as [Hn|_]; [lra |].
  assert (H : (- z)%Z = Int_part (- x)).
  { apply Int_part_spec. rewrite opp_IZR. lra. }
  rewrite <- H. lia.
Qed.

Lemma int_IZR (z : Z) : int (IZR z) = z.
Proof.
  destruct (Rle_dec 0 (IZR z)).
  - apply int_unique_nonneg; lra.
  - apply int_unique_neg; lra.
Qed.

Lemma two_pi_pos : 0 < 2 * PI.
Proof. pose proof PI_RGT_0. lra. Qed.

(** [getRange] with the float literals read as numbers. *)
Lemma getRange_eq (x : R) :
  getRange x =
  if Rlt_dec (2 * PI * (x / (2 * PI) - IZR (int (x / (2 * PI))))) 0
  then 2 * PI * (x / (2 * PI) - IZR (int (x / (2 * PI)))) + 2 * PI
  else 2 * PI * (x / (2 * PI) - IZR (int (x / (2 * PI)))).
Proof.
  unfold getRange. cbv zeta.
  replace 2.0 with 2 by lra. replace 0.0 with 0 by lra. reflexivity.
Qed.

Lemma getRange_bounds (x : R) : 0 <= getRange x < 2 * PI.
Proof.
  pose proof two_pi_pos as Hp.
  rewrite getRange_eq.
  set (t := x / (2 * PI)).
  destruct (Rle_dec 0 t) as [Ht|Ht].
  - destruct (int_nonneg t Ht) as [H1 H2].
    destruct (Rlt_dec _ 0) as [Hlt|Hge]; nra.
  - apply Rnot_le_lt in Ht. destruct (int_neg t Ht) as [H1 H2].
    destruct (Rlt_dec _ 0) as [Hlt|Hge]; nra.
Qed.

Lemma getRange_fixed (x : R) : 0 <= x < 2 * PI -> getRange x = x.
Proof.
  intros Hx. pose proof two_pi_pos as Hp.
  rewrite getRange_eq.
  assert (Ht : 0 <= x / (2 * PI) < 1).
  { split.
    - apply Rmult_le_pos; [lra | left; apply Rinv_0_lt_compat; lra].
    - apply (Rmult_lt_reg_r (2 * PI)); [lra |].
      replace (x / (2 * PI) * (2 * PI)) with x by (field; lra). lra. }
  rewrite (int_unique_nonneg _ 0%Z); [| lra | simpl; lra].
  replace (2 * PI * (x / (2 * PI) - 0)) with x by (field; lra).
  destruct (Rlt_dec x 0) as [Hlt|Hge]; lra.
Qed.

Lemma getRange_idempotent (x : R) : getRange (getRange x) = getRange x.
Proof. apply getRange_fixed, getRange_bounds. Qed.

Lemma getRange_periodic (x : R) : getRange (x + 2 * PI) = getRange x.
Proof.
  pose proof two_pi_pos as Hp.
  rewrite !getRange_eq.
  replace ((x + 2 * PI) / (2 * PI)) with (x / (2 * PI) + 1) by (field; lra).
  set (t := x / (2 * PI)).
  destruct (Rle_dec 0 t) as [Ht|Ht].
  - destruct (int_nonneg t Ht) as [H1 H2].
    rewrite (int_unique_nonneg (t + 1) (int t + 1)%Z); [| lra | rewrite plus_IZR; lra].
    rewrite plus_IZR. replace (t + 1 - (IZR (int t) + 1)) with (t - IZR (int t)) by ring.
    reflexivity.
  - apply Rnot_le_lt in Ht. destruct (int_neg t Ht) as [H1 H2].
    destruct (Rle_dec 0 (t + 1)) as [Hu|Hu].
    + destruct (Req_dec (t + 1) 0) as [He|He].
      * assert (H : t = -1) by lra. rewrite H.
        replace (-1 + 1) with (IZR 0) by (simpl; ring).
        replace (-1) with (IZR (-1)) by reflexivity.
        rewrite !int_IZR.
        destruct (Rlt_dec _ 0); destruct (Rlt_dec _ 0); simpl in *; lra.
      * rewrite (int_unique_nonneg (t + 1) 0%Z); [| lra | simpl; lra].
        rewrite (int_unique_neg t 0%Z); [| lra | simpl; lra].
        simpl.
        destruct (Rlt_dec _ 0); destruct (Rlt_dec _ 0); nra.
    + apply Rnot_le_lt in Hu.
      rewrite (int_unique_neg (t + 1) (int t + 1)%Z); [| lra | rewrite plus_IZR; lra].
      rewrite plus_IZR. replace (t + 1 - (IZR (int t) + 1)) with (t - IZR (int t)) by ring.
      reflexivity.
Qed.


(** In exact arithmetic the angle reduction is a total function on the
    reals; its value always lies in [0, 2 PI), also for negative
    arguments; reducing twice is reducing once; and arguments 2 PI apart
    reduce to the same value. *)
Lemma getRange_exact_arithmetic :
  forall x : R,
    0 <= getRange x < 2 * PI /\
    getRange (getRange x) = getRange x /\
    getRange x = getRange (x + 2 * PI).
Proof.
  intros x. split; [| split].
  - apply getRange_bounds.
  - apply getRange_idempotent.
  - symmetry. apply getRange_periodic.
Qed.

End AngleReduction.

(** ** The angle reduction on doubles *)

(** C5: on doubles [__getRange] misses the range it aims at.  For the
    tiny negative angle -2^-70 the product of line 159 is negative, the
    sum of line 161 rounds to 2.0 * pi, and that is the value returned:
    the end of the range, which the claim excludes.  Reducing it once
    more gives 0.0, a different double, so reducing twice is not
    reducing once; and the argument one turn further,
    -2^-70 + 2.0 * pi, reduces to 0.0 as well, so two arguments 2 pi
    apart do not reduce to the same value. *)
Theorem C5_getRange_float_misses_range :
  getRange_float (-0x1p-70) = Ok (2.0 * math_pi)%float /\
  getRange_float (2.0 * math_pi) = Ok 0.0%float /\
  getRange_float (-0x1p-70 + 2.0 * math_pi) = Ok 0.0%float /\
  (0.0 =? 2.0 * math_pi)%float = false.
Proof.
  split; [| split; [| split]]; vm_compute; reflexivity.
Qed.

(** ** The UTC offset of the constructor *)

(** [_ord2ymd] also inverts [_ymd2ord] from the right on calendar dates. *)
Lemma ord2ymd_ymd2ord (y m d : Z) :
  valid_date y m d -> ord2ymd (ymd2ord y m d) = (y, m, d).
Proof.
  intros Hv.
  destruct (ord2ymd (ymd2ord y m d)) as [[y' m'] d'] eqn:E.
  destruct (ord2ymd_spec _ _ _ _ E) as (Ho & Hm & Hd).
  assert (Hv' : valid_date y' m' d') by (split; assumption).
  pose proof (ymd2ord_lt y m d y' m' d' Hv Hv') as H1.
  pose proof (ymd2ord_lt y' m' d' y m d Hv' Hv) as H2.
  assert (y' = y /\ m' = m /\ d' = d) as (-> & -> & ->) by lia.
  reflexivity.
Qed.

Section Offset.

Variable date : datetime.
Variable off : Z.
Hypothesis valid_date_in : valid_datetime date = true.
Hypothesis aware_date : tzinfo date = Some off.

Let mm := hour date * 60 + minute date - off.

Lemma utctimetuple_fields :
  utctimetuple date =
  let '(y, m, d) := ord2ymd (toordinal date + mm / 1440) in
  timetuple_of y m d (mm mod 1440 / 60) (mm mod 60) (second date) 0.
Proof. unfold utctimetuple. rewrite aware_date. reflexivity. Qed.

Lemma utc_hour_minute :
  item (utctimetuple date) 3 = mm mod 1440 / 60 /\
  item (utctimetuple date) 4 = mm mod 60.
Proof.
  rewrite utctimetuple_fields.
  destruct (ord2ymd (toordinal date + mm / 1440)) as [[y m] d].
  split; reflexivity.
Qed.

(** The hour and minute differences add up to the true offset plus one
    day for every day the UTC date is ahead of the local date. *)
Lemma offset_minutes :
  (item (timetuple date) 3 - item (utctimetuple date) 3) * 60
  + (item (timetuple date) 4 - item (utctimetuple date) 4)
  = off + 1440 * utc_day_carry date.
Proof.
  destruct utc_hour_minute as [-> ->].
  unfold utc_day_carry. rewrite aware_date. fold mm.
  change (item (timetuple date) 3) with (hour date).
  change (item (timetuple date) 4) with (minute date).
  assert (mm = hour date * 60 + minute date - off) by reflexivity.
  Z.to_euclidean_division_equations. lia.
Qed.

Lemma offsetUTC_of_value :
  offsetUTC_of date = (IZR off / 60 + 24 * IZR (utc_day_carry date))%R.
Proof.
  pose proof offset_minutes as H.
  unfold offsetUTC_of. cbv zeta.
  set (dh := item (timetuple date) 3 - item (utctimetuple date) 3) in *.
  set (dm := item (timetuple date) 4 - item (utctimetuple date) 4) in *.
  apply (f_equal IZR) in H.
  rewrite !plus_IZR, !mult_IZR in H.
  replace 60.0%R with 60%R by lra.
  lra.
Qed.

Lemma utc_day_carry_bound : -1 <= utc_day_carry date <= 1.
Proof.
  pose proof (valid_datetime_fields _ valid_date_in) as (_ & _ & Hh & Hm & _ & _ & Htz).
  unfold utc_day_carry. rewrite aware_date in *. cbn in Htz.
  rewrite andb_true_iff, !Z.ltb_lt in Htz.
  Z.to_euclidean_division_equations. lia.
Qed.

Lemma utc_date_same_iff :
  firstn 3 (utctimetuple date) = firstn 3 (timetuple date) <->
  utc_day_carry date = 0.
Proof.
  pose proof (valid_datetime_fields _ valid_date_in) as (_ & Hd & _).
  rewrite utctimetuple_fields.
  unfold utc_day_carry. rewrite aware_date. fold mm.
  destruct (ord2ymd (toordinal date + mm / 1440)) as [[y m] d] eqn:E.
  cbn [timetuple timetuple_of firstn].
  split.
  - intros H. injection H as -> -> ->.
    destruct (ord2ymd_spec _ _ _ _ E) as (Ho & _). unfold toordinal in Ho. lia.
  - intros H0. rewrite H0, Z.add_0_r in E. unfold toordinal in E.
    rewrite (ord2ymd_ymd2ord _ _ _ Hd) in E. injection E as <- <- <-. reflexivity.
Qed.

End Offset.




(** ** The solver *)

Section SolverProperties.

Local Open Scope R_scope.

(** *** The divisor of the hour-angle formula *)

Lemma Rabs_le_between (x b : R) : Rabs x <= b -> - b <= x <= b.
Proof. unfold Rabs. destruct (Rcase_abs x); lra. Qed.

Lemma cos_radians_pos (lat : R) : Rabs lat <= 63 -> 0 < cos (radians lat).
Proof.
  intros H. apply Rabs_le_between in H. destruct H as [H1 H2].
  pose proof PI_RGT_0 as Hp. unfold radians.
  apply cos_gt_0; nra.
Qed.

Lemma sin_lt_1 (x : R) : 0 < x < PI / 2 -> 0 < sin x < 1.
Proof.
  intros [H1 H2]. pose proof PI_RGT_0 as Hp. split.
  - apply sin_gt_0; lra.
  - rewrite <- sin_PI2. apply sin_increasing_1; lra.
Qed.

(** [atan2] of a sine and the matching cosine: for |d| < 1 the point
    (sqrt (1 - d^2), d) lies in the right half plane and the angle has
    cosine sqrt (1 - d^2). *)
Lemma unit_declination (d : R) :
  -1 < d < 1 ->
  0 < sqrt (1 - d * d) /\
  atan2 d (sqrt (1 - d * d)) = atan (d / sqrt (1 - d * d)) /\
  cos (atan2 d (sqrt (1 - d * d))) = sqrt (1 - d * d).
Proof.
  intros Hd.
  assert (Hpos : 0 < 1 - d * d) by nra.
  pose proof (sqrt_lt_R0 _ Hpos) as Hr.
  assert (Hat : atan2 d (sqrt (1 - d * d)) = atan (d / sqrt (1 - d * d))).
  { unfold atan2. destruct (Rlt_dec 0 (sqrt (1 - d * d))); [reflexivity | contradiction]. }
  split; [exact Hr |]. split; [exact Hat |].
  rewrite Hat, cos_atan.
  set (r := sqrt (1 - d * d)) in *.
  assert (Hrr : r * r = 1 - d * d) by (apply sqrt_sqrt; lra).
  replace (1 + (d / r)²) with ((/ r)²).
  - rewrite sqrt_Rsqr by (left; now apply Rinv_0_lt_compat). field. lra.
  - unfold Rsqr. apply (Rmult_eq_reg_r (r * r)); [| nra]. field_simplify; nra.
Qed.

(** The day count of every calendar date of the years 1..9999. *)
Lemma ephem2000Day_bound (dt : datetime) :
  valid_datetime dt = true ->
  -800000 <= ephem2000Day_of (year dt) (month dt) (day dt) <= 3000000.
Proof.
  intros H. apply valid_datetime_fields in H.
  destruct H as (Hy & [Hm Hd] & _).
  pose proof (days_in_year_bound _ _ _ Hm Hd) as Hb.
  assert (Hd' : (1 <= day dt <= 31)%Z).
  { unfold days_in_month in Hd.
    apply month_cases in Hm.
    destruct (is_leap (year dt));
      repeat (destruct Hm as [Hm|Hm]); rewrite Hm in Hd;
      eval_month_tables; lia. }
  unfold ephem2000Day_of.
  set (n := (367 * year dt - 7 * (year dt + (month dt + 9) / 12) / 4
             + 275 * month dt / 9 + day dt)%Z).
  assert (Hn : (0 <= n <= 3700000)%Z).
  { unfold n. Z.to_euclidean_division_equations. lia. }
  destruct Hn as [Hn1 Hn2]. apply IZR_le in Hn1, Hn2. lra.
Qed.

Section SunPosition.

Variable ephem2000Day : R.
Variable ut : R.
Hypothesis ephem_range : -800000 <= ephem2000Day <= 3000000.
Hypothesis ut_range : 0 <= ut < 2 * PI.

(** The obliquity of every such date lies strictly inside the first
    quarter turn, so the sine of the declination is short of 1. *)
Lemma sin_declination_bound :
  let '(e, obl, lam) := ecliptic ephem2000Day ut in
  0 < obl < PI / 2 /\ -1 < sin obl * sin lam < 1.
Proof.
  pose proof PI_RGT_0 as Hp. pose proof PI2_1 as Hp1.
  unfold ecliptic. cbv zeta.
  set (t := (ephem2000Day + ut / (2 * PI)) / 36525).
  assert (Hu : 0 <= ut / (2 * PI) < 1).
  { split.
    - apply Rmult_le_pos; [lra | left; apply Rinv_0_lt_compat; lra].
    - apply (Rmult_lt_reg_r (2 * PI)); [lra |].
      replace (ut / (2 * PI) * (2 * PI)) with ut by (field; lra). lra. }
  assert (Ht : -22 <= t <= 83) by (unfold t; lra).
  set (lam := getRange (4.8949504201433 + 628.331969753199 * t) +
              (0.033423 * sin (getRange (6.2400408 + 628.3019501 * t)) +
               0.00034907 * sin (2 * getRange (6.2400408 + 628.3019501 * t)))).
  set (obl := 0.409093 - 0.0002269 * t).
  assert (Ho : 0 < obl < PI / 2) by (unfold obl; lra).
  destruct (sin_lt_1 obl Ho) as [Hs1 Hs2].
  pose proof (SIN_bound lam) as [Hl1 Hl2].
  split; [exact Ho | nra].
Qed.

(** The declination is computed without error, its cosine is the
    square root taken on line 133, and it stays strictly inside a
    quarter turn. *)
Lemma sun_position_ok :
  let '(e, obl, lam) := ecliptic ephem2000Day ut in
  let delta := atan2 (sin obl * sin lam)
                     (sqrt (1 - sin obl * sin lam * (sin obl * sin lam))) in
  sun_position ephem2000Day ut = Ok (e, delta) /\
  cos delta = sqrt (1 - sin obl * sin lam * (sin obl * sin lam)) /\
  - (PI / 2) < delta < PI / 2.
Proof.
  pose proof sin_declination_bound as Hb. unfold sun_position.
  destruct (ecliptic ephem2000Day ut) as [[e obl] lam].
  destruct Hb as [_ Hd]. cbv zeta.
  destruct (unit_declination (sin obl * sin lam) Hd) as (Hr & Hat & Hcos).
  unfold math_sqrt.
  destruct (Rlt_dec (1 - sin obl * sin lam * (sin obl * sin lam)) 0) as [Hneg|_];
    [nra |].
  cbn [bind]. split; [reflexivity |]. split; [exact Hcos |].
  rewrite Hat. pose proof (atan_bound (sin obl * sin lam
    / sqrt (1 - sin obl * sin lam * (sin obl * sin lam)))). lra.
Qed.

End SunPosition.

Lemma hour_correction_ok (cosc : R) : exists c : R, hour_correction cosc = Ok c.
Proof.
  unfold hour_correction.
  destruct (Rgt_dec cosc 1); [eexists; reflexivity |].
  destruct (Rlt_dec cosc (-1)); [eexists; reflexivity |].
  unfold math_sqrt. destruct (Rlt_dec (1 - cosc * cosc) 0) as [Hneg|_].
  - exfalso. nra.
  - cbn [bind]. eexists; reflexivity.
Qed.

Section Loop.

Variable ephem2000Day sinAlt sinPhi cosPhi lon rs : R.
Hypothesis ephem_range : -800000 <= ephem2000Day <= 3000000.
Hypothesis cosPhi_pos : 0 < cosPhi.

Let body := loop_body ephem2000Day sinAlt sinPhi cosPhi lon rs.

Lemma loop_init_inv : loop_inv loop_init.
Proof. unfold loop_inv, loop_init. cbn. pose proof PI_RGT_0. lra. Qed.

(** In a round that starts from an estimate in [0, 2 PI) the divisor is
    cos(lat) * sqrt (1 - (sin obl * sin lam)^2), and positive. *)
Lemma divisor_formula (st : loop_state) :
  loop_inv st ->
  let '(e, obl, lam) := ecliptic ephem2000Day (utnew st) in
  let d := sin obl * sin lam in
  let delta := atan2 d (sqrt (1 - d * d)) in
  -1 < d < 1 /\
  sun_position ephem2000Day (utnew st) = Ok (e, delta) /\
  cos delta = sqrt (1 - d * d) /\
  0 < cos delta /\ 0 < cosPhi * cos delta.
Proof.
  intros Hi.
  pose proof (sin_declination_bound ephem2000Day (utnew st) ephem_range Hi) as Hb.
  pose proof (sun_position_ok ephem2000Day (utnew st) ephem_range Hi) as Hs.
  destruct (ecliptic ephem2000Day (utnew st)) as [[e obl] lam].
  cbv zeta in *. destruct Hb as [_ Hd]. destruct Hs as (Hsp & Hcos & Hq).
  assert (Hc : 0 < cos (atan2 (sin obl * sin lam)
                 (sqrt (1 - sin obl * sin lam * (sin obl * sin lam)))))
    by (apply cos_gt_0; lra).
  split; [exact Hd |]. split; [exact Hsp |]. split; [exact Hcos |].
  split; [exact Hc | apply Rmult_lt_0_compat; assumption].
Qed.

Lemma divisor_pos (st : loop_state) :
  loop_inv st ->
  exists e delta : R,
    sun_position ephem2000Day (utnew st) = Ok (e, delta) /\
    0 < cos delta /\ 0 < cosPhi * cos delta.
Proof.
  intros Hi. pose proof (divisor_formula st Hi) as H.
  destruct (ecliptic ephem2000Day (utnew st)) as [[e obl] lam].
  cbv zeta in H. destruct H as (_ & Hsp & _ & Hc & Hdiv).
  do 2 eexists. split; [exact Hsp |]. split; assumption.
Qed.

(** A round never raises, and hands on an estimate in [0, 2 PI). *)
Lemma loop_body_ok (st : loop_state) :
  loop_inv st ->
  exists st', body st = Ok st' /\ loop_inv st' /\
              ct st' = (ct st + 1)%Z /\ utold st' = utnew st.
Proof.
  intros Hi. unfold body, loop_body. cbv zeta.
  destruct (divisor_pos st Hi) as (e & delta & -> & Hc & Hdiv).
  cbn [bind]. unfold fdiv.
  destruct (Req_EM_T (cosPhi * cos delta) 0) as [Hz|_]; [lra |].
  cbn [bind].
  destruct (hour_correction_ok ((sinAlt - sinPhi * sin delta) / (cosPhi * cos delta)))
    as (c & ->).
  cbn [bind]. eexists. split; [reflexivity |].
  unfold loop_inv. cbn [utnew ct utold].
  split; [apply getRange_bounds | split; reflexivity].
Qed.

Lemma loop_reach_inv (k : nat) (st : loop_state) :
  loop_reach body k st -> loop_inv st /\ ct st = Z.of_nat k.
Proof.
  induction 1 as [|k st st' _ [IHi IHc] Hg Hb].
  - split; [apply loop_init_inv | reflexivity].
  - destruct (loop_body_ok st IHi) as (st'' & Hb' & Hi' & Hc' & _).
    rewrite Hb in Hb'. injection Hb' as <-.
    split; [exact Hi' | rewrite Hc', IHc; lia].
Qed.

Lemma loop_guard_false (st : loop_state) :
  loop_guard st = false <->
  fabs (utold st - utnew st) <= 0.001 \/ (35 <= ct st)%Z.
Proof.
  unfold loop_guard.
  destruct (Rgt_dec (fabs (utold st - utnew st)) 0.001) as [Hg|Hg];
    destruct (Z.ltb_spec (ct st) 35) as [Hc|Hc]; cbn [andb]; split; intros Hx;
    try reflexivity; try discriminate; try (right; assumption);
    try (left; lra).
  destruct Hx as [Hx|Hx]; [lra | lia].
Qed.

Lemma loop_stops_here (st : loop_state) :
  loop_inv st -> loop_guard st = false ->
  forall n : nat,
  exists k st',
    (k <= n)%nat /\ loop_run body k st (Ok st') /\ loop_inv st' /\
    ct st' = (ct st + Z.of_nat k)%Z /\ loop_guard st' = false /\
    forall fuel, (k <= fuel)%nat -> while_loop fuel body st = Some (Ok st').
Proof.
  intros Hi Hg n. exists 0%nat, st.
  split; [lia |]. split; [now constructor |].
  split; [exact Hi |]. split; [cbn; lia |]. split; [exact Hg |].
  intros fuel _. destruct fuel; cbn; now rewrite Hg.
Qed.

(** From a state with [n] rounds left before the cap the loop exits
    within [n] rounds, whatever bound the model was given beyond that. *)
Lemma loop_terminates (n : nat) :
  forall st, loop_inv st -> (35 - ct st <= Z.of_nat n)%Z ->
  exists k st',
    (k <= n)%nat /\ loop_run body k st (Ok st') /\ loop_inv st' /\
    ct st' = (ct st + Z.of_nat k)%Z /\ loop_guard st' = false /\
    forall fuel, (k <= fuel)%nat -> while_loop fuel body st = Some (Ok st').
Proof.
  induction n as [|n IH]; intros st Hi Hc.
  - assert (Hg : loop_guard st = false) by (apply loop_guard_false; right; lia).
    exact (loop_stops_here st Hi Hg _).
  - destruct (loop_guard st) eqn:Hg; [| exact (loop_stops_here st Hi Hg _)].
    destruct (loop_body_ok st Hi) as (st1 & Hb & Hi1 & Hc1 & _).
    destruct (IH st1 Hi1 ltac:(lia)) as (k & st' & Hk & Hrun & Hi' & Hc' & Hg' & Hfuel).
    exists (S k), st'.
    split; [lia |]. split; [econstructor; eassumption |].
    split; [exact Hi' |]. split; [lia |]. split; [exact Hg' |].
    intros fuel Hf. destruct fuel as [|fuel]; [lia |].
    cbn. rewrite Hg. fold body. rewrite Hb. apply Hfuel. lia.
Qed.

End Loop.

Lemma sample_accepted : accepted (local_clock 12 0) 40.7 "official".
Proof.
  unfold accepted. repeat split; try reflexivity.
  unfold Rabs. destruct (Rcase_abs 40.7); lra.
Qed.

Section Solver.

Variable s : solver.
Variable rs : R.
Hypothesis input_accepted : accepted (dateLocal s) (lat s) (zenith s).

Let ephem := ephem2000Day_of (year (dateLocal s)) (month (dateLocal s)) (day (dateLocal s)).

Lemma accepted_altitude : exists altitude, dict_get ZENITH (zenith s) = Some altitude.
Proof.
  destruct input_accepted as (_ & _ & Hz & _). unfold dict_contains in Hz.
  destruct (dict_get ZENITH (zenith s)) as [a|]; [now exists a | discriminate].
Qed.

Lemma determineRiseOrSet_runs :
  exists (altitude : R) (k : nat) (st : loop_state),
    dict_get ZENITH (zenith s) = Some altitude /\
    (k <= 35)%nat /\
    loop_run (loop_body ephem (sin (radians altitude)) (sin (radians (lat s)))
                (cos (radians (lat s))) (radians (lon s)) rs)
             k loop_init (Ok st) /\
    ct st = Z.of_nat k /\
    (fabs (utold st - utnew st) <= 0.001 \/ k = 35%nat) /\
    forall fuel, (35 <= fuel)%nat ->
      determineRiseOrSet fuel s ephem rs
      = Some (get24HourLocalTime s rs (degrees (utnew st) / 15)).
Proof.
  destruct accepted_altitude as (altitude & Ha).
  destruct input_accepted as (Hv & _ & _ & Hlat).
  pose proof (ephem2000Day_bound _ Hv) as He. fold ephem in He.
  pose proof (cos_radians_pos _ Hlat) as Hc.
  destruct (loop_terminates ephem (sin (radians altitude)) (sin (radians (lat s)))
              (cos (radians (lat s))) (radians (lon s)) rs He Hc 35 loop_init
              (loop_init_inv) ltac:(cbn; lia))
    as (k & st & Hk & Hrun & Hi & Hct & Hg & Hfuel).
  exists altitude, k, st.
  split; [exact Ha |]. split; [exact Hk |]. split; [exact Hrun |].
  cbn in Hct. split; [exact Hct |].
  split.
  - apply loop_guard_false in Hg. destruct Hg as [Hg|Hg]; [left; exact Hg | right; lia].
  - intros fuel Hf. unfold determineRiseOrSet. rewrite Ha. cbv zeta.
    rewrite (Hfuel fuel ltac:(lia)). reflexivity.
Qed.

End Solver.



(** C10: for every accepted input (latitude within 63 degrees, a
    calendar date of the years 1..9999) and every round of the loop,
    the divisor cos(lat) * cos(delta) of the cosc quotient is strictly
    positive: cos(lat) > 0, and with d = sin(obl) * sin(lam), |d| < 1,
    the declination is computed without error and
    cos(delta) = sqrt (1 - d^2) > 0; so the division never raises. *)
Theorem C10_divisor_positive :
  forall (s : solver) (rs sinAlt : R) (k : nat) (st : loop_state),
    accepted (dateLocal s) (lat s) (zenith s) ->
    loop_reach (loop_body
                  (ephem2000Day_of (year (dateLocal s)) (month (dateLocal s))
                                   (day (dateLocal s)))
                  sinAlt (sin (radians (lat s)))
                  (cos (radians (lat s))) (radians (lon s)) rs) k st ->
    let '(e, obl, lam) :=
      ecliptic (ephem2000Day_of (year (dateLocal s)) (month (dateLocal s))
                                (day (dateLocal s))) (utnew st) in
    let d := sin obl * sin lam in
    let delta := atan2 d (sqrt (1 - d * d)) in
    -1 < d < 1 /\
    sun_position (ephem2000Day_of (year (dateLocal s)) (month (dateLocal s))
                                  (day (dateLocal s))) (utnew st)
    = Ok (e, delta) /\
    cos delta = sqrt (1 - d * d) /\
    0 < cos (radians (lat s)) /\ 0 < cos delta /\
    0 < cos (radians (lat s)) * cos delta /\
    forall num : R,
      fdiv num (cos (radians (lat s)) * cos delta)
      = Ok (num / (cos (radians (lat s)) * cos delta)).
Proof.
  intros s rs sinAlt k st (Hv & _ & _ & Hlat) Hreach.
  pose proof (ephem2000Day_bound _ Hv) as He.
  pose proof (cos_radians_pos _ Hlat) as Hc.
  destruct (loop_reach_inv _ _ _ _ _ _ He Hc k st Hreach) as [Hi _].
  pose proof (divisor_formula _ _ He Hc st Hi) as H.
  destruct (ecliptic _ (utnew st)) as [[e obl] lam].
  cbv zeta in *. destruct H as (Hd & Hsp & Hcos & Hcd & Hdiv).
  split; [exact Hd |]. split; [exact Hsp |]. split; [exact Hcos |].
  split; [exact Hc |]. split; [exact Hcd |]. split; [exact Hdiv |].
  intros num. unfold fdiv.
  destruct (Req_EM_T _ 0) as [Hz|_]; [lra | reflexivity].
Qed.

Lemma C10_divisor_positive_witness :
  exists e delta : R,
    sun_position (ephem2000Day_of 2020 6 21) 0 = Ok (e, delta) /\
    0 < cos (radians 40.7) * cos delta.
Proof.
  pose proof (C10_divisor_positive sample_solver 1 (sin (radians (-0.833))) 0 loop_init
                sample_accepted (reach_init _)) as H.
  cbn [sample_solver solver_of dateLocal lat local_clock year month day
       loop_init utnew] in H.
  destruct (ecliptic (ephem2000Day_of 2020 6 21) 0) as [[e obl] lam].
  cbv zeta in H. destruct H as (_ & Hsp & _ & _ & _ & Hpos & _).
  do 2 eexists. split; [exact Hsp | exact Hpos].
Defined.

(** *** The splice onto the input date *)

Lemma replace_frame (dt dt' : datetime) (h mi s us : Z) :
  replace dt h mi s us = Ok dt' ->
  same_day_and_zone dt' dt /\
  hour dt' = h /\ minute dt' = mi /\ second dt' = s /\ microsecond dt' = us.
Proof.
  unfold replace.
  destruct (negb _); [discriminate |].
  destruct (negb _); [discriminate |].
  destruct (negb _); [discriminate |].
  destruct (negb _); [discriminate |].
  intros H. injection H as <-. unfold same_day_and_zone. cbn. tauto.
Qed.

(** What [replace] returns is again a datetime. *)
Lemma replace_valid (dt dt' : datetime) (h mi s us : Z) :
  valid_datetime dt = true -> replace dt h mi s us = Ok dt' ->
  valid_datetime dt' = true.
Proof.
  intros Hv. apply valid_datetime_fields in Hv.
  destruct Hv as (Hy & [Hm Hd] & _ & _ & _ & _ & Htz).
  unfold replace.
  destruct (andb _ _) eqn:E1; cbn [negb]; [| discriminate].
  destruct (andb _ _) eqn:E2 in |- *; cbn [negb]; [| discriminate].
  destruct (andb _ _) eqn:E3 in |- *; cbn [negb]; [| discriminate].
  destruct (andb _ _) eqn:E4 in |- *; cbn [negb]; [| discriminate].
  intros H. injection H as <-.
  rewrite andb_true_iff, Z.leb_le in E1, E2, E3, E4.
  unfold valid_datetime, MINYEAR, MAXYEAR.
  cbn [year month day hour minute second microsecond tzinfo].
  rewrite Htz, !andb_true_iff, !Z.leb_le, !Z.ltb_lt. lia.
Qed.

(** [__get24HourLocalTime] is one call of [replace] on the input date. *)
Lemma get24HourLocalTime_is_replace (s : solver) (rs decimalTime : R) :
  exists h mi sec us : Z,
    get24HourLocalTime s rs decimalTime = replace (dateLocal s) h mi sec us.
Proof. unfold get24HourLocalTime. cbv zeta. do 4 eexists. reflexivity. Qed.

Lemma sample_offset : offsetUTC sample_solver = 10.
Proof.
  unfold sample_solver, solver_of. cbn [offsetUTC].
  rewrite (offsetUTC_of_value (local_clock 12 0) 600 eq_refl).
  change (utc_day_carry (local_clock 12 0)) with 0%Z. lra.
Qed.

Lemma degrees_radians (x : R) : degrees (radians x) = x.
Proof. unfold degrees, radians. pose proof PI_RGT_0. field. lra. Qed.

Lemma radians_degrees (x : R) : radians (degrees x) = x.
Proof. unfold degrees, radians. pose proof PI_RGT_0. field. lra. Qed.

(** C7 fails on the code at the boundary it names: the hour angle
    7 PI / 6 lies in [0, 2 PI) and converts to 14.0 hours UTC; with the
    offset +10 the adjusted decimal hour is exactly 24.0, which the test
    [decimalTime > 24.0] lets through, the hour spliced is 24, and
    [replace] raises ValueError. *)
Theorem C7_hour_24_is_spliced :
  0 <= 7 * PI / 6 < 2 * PI /\
  offsetUTC sample_solver = offsetUTC_of (local_clock 12 0) /\
  degrees (7 * PI / 6) / 15 + offsetUTC sample_solver = 24 /\
  get24HourLocalTime sample_solver 1 (degrees (7 * PI / 6) / 15)
  = Err (ValueError VE_hour_range).
Proof.
  pose proof PI_RGT_0 as Hp.
  assert (Hd : degrees (7 * PI / 6) / 15 = 14).
  { unfold degrees. field. lra. }
  split; [lra |]. split; [reflexivity |].
  split; [rewrite Hd, sample_offset; lra |].
  unfold get24HourLocalTime. cbv zeta. rewrite Hd, sample_offset.
  replace (14 + 10) with 24 by lra.
  destruct (Rlt_dec 24 0.0) as [H|_]; [lra |].
  destruct (Rgt_dec 24 24.0) as [H|_]; [lra |].
  change 24 with (IZR 24) at 1. rewrite int_IZR.
  reflexivity.
Qed.

(** Away from that boundary the single correction does bring the hour
    into range. *)
Lemma wrapped_hour_in_range (d o : R) :
  0 <= d < 24 -> -24 < o < 24 -> d + o <> 24 ->
  let w := if Rlt_dec (d + o) 0.0 then d + o + 24.0
           else if Rgt_dec (d + o) 24.0 then d + o - 24.0 else d + o in
  0 <= w < 24 /\ (0 <= int w <= 23)%Z.
Proof.
  intros Hd Ho Hne w.
  assert (Hw : 0 <= w < 24).
  { unfold w. destruct (Rlt_dec (d + o) 0.0); [lra |].
    destruct (Rgt_dec (d + o) 24.0); lra. }
  split; [exact Hw |].
  destruct (int_nonneg w (proj1 Hw)) as [H1 H2].
  split.
  - apply le_IZR. destruct (Z.le_gt_cases 0 (int w)) as [H|H]; [now apply IZR_le |].
    assert (int w <= -1)%Z by lia. apply IZR_le in H0. lra.
  - destruct (Z.le_gt_cases (int w) 23) as [H|H]; [exact H |].
    assert (24 <= int w)%Z by lia. apply IZR_le in H0. lra.
Qed.


(** *** Validation in the constructor *)

Lemma replace_error (dt : datetime) (h mi s us : Z) (e : exn) :
  replace dt h mi s us = Err e -> is_InvalidInputError e = false.
Proof.
  unfold replace.
  repeat (destruct (negb _); [intros H; injection H as <-; reflexivity |]).
  discriminate.
Qed.

Lemma math_sqrt_error (x : R) (e : exn) :
  math_sqrt x = Err e -> is_InvalidInputError e = false.
Proof.
  unfold math_sqrt. destruct (Rlt_dec x 0); [| discriminate].
  intros H; injection H as <-; reflexivity.
Qed.

Lemma loop_body_error (ephem sinAlt sinPhi cosPhi lon rs : R) (st : loop_state) (e : exn) :
  loop_body ephem sinAlt sinPhi cosPhi lon rs st = Err e ->
  is_InvalidInputError e = false.
Proof.
  unfold loop_body, sun_position, ecliptic, hour_correction, fdiv. cbv zeta.
  destruct (math_sqrt _) as [r|e1] eqn:E1; cbn [bind];
    [clear E1 | intros H; injection H as <-; exact (math_sqrt_error _ _ E1)].
  destruct (Req_EM_T _ 0); cbn [bind];
    [intros H; injection H as <-; reflexivity |].
  destruct (Rgt_dec _ 1); cbn [bind]; [intros H; discriminate H |].
  destruct (Rlt_dec _ (-1)); cbn [bind]; [intros H; discriminate H |].
  destruct (math_sqrt _) as [r2|e2] eqn:E2; cbn [bind]; [intros H; discriminate H |].
  intros H; injection H as <-; exact (math_sqrt_error _ _ E2).
Qed.

Lemma while_loop_error (body : loop_state -> result loop_state) (fuel : nat) :
  (forall st e, body st = Err e -> is_InvalidInputError e = false) ->
  forall st e, while_loop fuel body st = Some (Err e) ->
  is_InvalidInputError e = false.
Proof.
  intros Hbody. induction fuel as [|fuel IH]; intros st e; cbn.
  - destruct (loop_guard st); discriminate.
  - destruct (loop_guard st); [| discriminate].
    destruct (body st) as [st'|e'] eqn:Eb.
    + apply IH.
    + intros H. injection H as <-. exact (Hbody _ _ Eb).
Qed.

Lemma determineRiseOrSet_error (fuel : nat) (s : solver) (ephem rs : R) (e : exn) :
  determineRiseOrSet fuel s ephem rs = Some (Err e) ->
  is_InvalidInputError e = false.
Proof.
  unfold determineRiseOrSet.
  destruct (dict_get ZENITH (zenith s)) as [altitude|];
    [| intros H; injection H as <-; reflexivity].
  cbv zeta.
  destruct (while_loop _ _ _) as [[st|e']|] eqn:Ew; [| | discriminate].
  - destruct (get24HourLocalTime_is_replace s rs (degrees (utnew st) / 15))
      as (h & mi & sec & us & ->).
    intros H. injection H as H. exact (replace_error _ _ _ _ _ _ H).
  - intros H. injection H as <-.
    exact (while_loop_error _ _ (loop_body_error _ _ _ _ _ _) _ _ Ew).
Qed.

Lemma determineRiseSet_error (fuel : nat) (s : solver) (e : exn) :
  determineRiseSet fuel s = Some (Err e) -> is_InvalidInputError e = false.
Proof.
  unfold determineRiseSet. cbv zeta.
  destruct (determineRiseOrSet fuel s _ 1) as [[rise|e1]|] eqn:E1; [| | discriminate].
  - destruct (determineRiseOrSet fuel s _ (-1)) as [[set|e2]|] eqn:E2;
      [discriminate | | discriminate].
    intros H. injection H as <-. exact (determineRiseOrSet_error _ _ _ _ _ E2).
  - intros H. injection H as <-. exact (determineRiseOrSet_error _ _ _ _ _ E1).
Qed.

(** The constructor raises one of its own three errors exactly when the
    instant is naive, the zenith name is unknown or the latitude is
    beyond 63 degrees. *)
Lemma init_InvalidInputError_iff (fuel : nat) (date : datetime) (lat lon : R)
  (zenith : string) :
  (exists e, SunriseSunset_init fuel date lat lon zenith = Some (Err e) /\
             is_InvalidInputError e = true) <->
  tzinfo date = None \/ dict_contains ZENITH zenith = false \/ Rabs lat > 63.
Proof.
  unfold SunriseSunset_init. split.
  - intros (e & He & Hi).
    destruct (tzinfo date); [| now left].
    destruct (dict_contains ZENITH zenith); [| right; now left].
    cbn [negb] in He.
    destruct (Rgt_dec (Rabs lat) 63) as [Hbig|_]; [right; now right |].
    rewrite (determineRiseSet_error _ _ _ He) in Hi. discriminate.
  - intros [H|[H|H]].
    + rewrite H. eexists. split; reflexivity.
    + destruct (tzinfo date); [| eexists; split; reflexivity].
      rewrite H. eexists. split; reflexivity.
    + destruct (tzinfo date); [| eexists; split; reflexivity].
      destruct (dict_contains ZENITH zenith); cbn [negb];
        [| eexists; split; reflexivity].
      destruct (Rgt_dec (Rabs lat) 63); [| contradiction].
      eexists. split; reflexivity.
Qed.

Lemma five_zenith_names :
  map (fun z => dict_contains ZENITH z)
      ["official"; "civil"; "nautical"; "amateur"; "astronomical"; "noon"]%string
  = [true; true; true; true; true; false].
Proof. reflexivity. Qed.

Lemma latitude_gate :
  Rabs 64 > 63 /\ Rabs (-64) > 63 /\ ~ Rabs 63 > 63 /\ ~ Rabs (-63) > 63.
Proof.
  unfold Rabs.
  destruct (Rcase_abs 64), (Rcase_abs (-64)), (Rcase_abs 63), (Rcase_abs (-63));
    repeat split; lra.
Qed.

(** *** A run that ends in the splice *)

Lemma getRange_shift (x : R) : exists m : Z, getRange x = x + 2 * PI * IZR m.
Proof.
  pose proof PI_RGT_0 as Hp. rewrite getRange_eq.
  destruct (Rlt_dec _ 0).
  - exists (- int (x / (2 * PI)) + 1)%Z. rewrite plus_IZR, opp_IZR. field. lra.
  - exists (- int (x / (2 * PI)))%Z. rewrite opp_IZR. field. lra.
Qed.

Lemma getRange_periodic_nat (n : nat) (x : R) :
  getRange (x + 2 * PI * INR n) = getRange x.
Proof.
  induction n as [|n IH].
  - cbn [INR]. f_equal. ring.
  - rewrite S_INR.
    replace (x + 2 * PI * (INR n + 1)) with (x + 2 * PI * INR n + 2 * PI) by ring.
    now rewrite getRange_periodic.
Qed.

Lemma getRange_periodic_Z (m : Z) (x : R) :
  getRange (x + 2 * PI * IZR m) = getRange x.
Proof.
  destruct (Z.le_gt_cases 0 m) as [H|H].
  - rewrite <- (Z2Nat.id m H), <- INR_IZR_INZ. apply getRange_periodic_nat.
  - rewrite <- (getRange_periodic_nat (Z.to_nat (- m)) (x + 2 * PI * IZR m)).
    rewrite INR_IZR_INZ, Z2Nat.id by lia. rewrite opp_IZR. f_equal. ring.
Qed.

Lemma loop_body_first_round (ephem sinAlt sinPhi cosPhi : R) :
  -800000 <= ephem <= 3000000 -> 0 < cosPhi ->
  exists e c : R, forall lon rs : R,
    loop_body ephem sinAlt sinPhi cosPhi lon rs loop_init
    = Ok (mkloop 0 (getRange (0 - (0 - PI + e + lon + rs * c))) 1).
Proof.
  intros He Hc. pose proof PI_RGT_0 as Hp.
  destruct (divisor_pos ephem cosPhi He Hc loop_init loop_init_inv)
    as (e & delta & Hsp & _ & Hdiv).
  destruct (hour_correction_ok ((sinAlt - sinPhi * sin delta) / (cosPhi * cos delta)))
    as (c & Hcor).
  exists e, c. intros lon rs.
  unfold loop_body. cbv zeta. cbn [utnew ct loop_init] in *.
  rewrite Hsp. cbn [bind]. unfold fdiv.
  destruct (Req_EM_T (cosPhi * cos delta) 0) as [Hz|_]; [lra |].
  cbn [bind]. rewrite Hcor. cbn [bind]. reflexivity.
Qed.

Lemma utc_noon_offset : offsetUTC_of utc_noon = 0.
Proof.
  rewrite (offsetUTC_of_value utc_noon 0 eq_refl).
  change (utc_day_carry utc_noon) with 0%Z. lra.
Qed.

Lemma utc_noon_accepted : accepted utc_noon 0 "official".
Proof.
  unfold accepted. repeat split; try reflexivity.
  rewrite Rabs_R0. lra.
Qed.

(** At [landing_longitude theta] the first sunrise round ends on
    [theta]. *)
Lemma first_round_lands (theta : R) :
  0 <= theta < 2 * PI ->
  exists st : loop_state,
    loop_body (ephem2000Day_of 2020 6 21) (sin (radians (-0.833)))
      (sin (radians 0)) (cos (radians 0)) (radians (landing_longitude theta)) 1
      loop_init
    = Ok st /\ utold st = 0 /\ utnew st = theta.
Proof.
  intros Ht. pose proof PI_RGT_0 as Hp.
  pose proof (ephem2000Day_bound utc_noon eq_refl) as He.
  cbn [year month day utc_noon] in He.
  assert (Hc : 0 < cos (radians 0)).
  { apply cos_radians_pos. rewrite Rabs_R0. lra. }
  destruct (loop_body_first_round (ephem2000Day_of 2020 6 21) (sin (radians (-0.833)))
              (sin (radians 0)) (cos (radians 0)) He Hc) as (e & c & Hbody).
  eexists. split; [apply Hbody |]. cbn [utold utnew]. split; [reflexivity |].
  unfold landing_longitude, first_estimate.
  rewrite radians_degrees, (Hbody 0 1). cbn [utnew].
  set (A := 0 - (0 - PI + e + 0 + 1 * c)).
  destruct (getRange_shift A) as (m & ->).
  replace (0 - (0 - PI + e + (A + 2 * PI * IZR m - theta) + 1 * c))
    with (theta + 2 * PI * IZR (- m))
    by (unfold A; rewrite opp_IZR; ring).
  rewrite getRange_periodic_Z. now apply getRange_fixed.
Qed.

(** When [theta] is within the tolerance of the start value 0 the loop
    stops after that round and [theta] is what gets spliced. *)
Lemma sunrise_lands (theta : R) (fuel : nat) :
  0 <= theta <= 0.001 -> (1 <= fuel)%nat ->
  determineRiseOrSet fuel (landing_solver theta) (ephem2000Day_of 2020 6 21) 1
  = Some (get24HourLocalTime (landing_solver theta) 1 (degrees theta / 15)).
Proof.
  intros Ht Hf. pose proof PI_RGT_0 as Hp. pose proof PI2_1 as Hp1.
  destruct fuel as [|fuel]; [lia |].
  unfold determineRiseOrSet. cbn [landing_solver solver_of zenith lat lon].
  change (dict_get ZENITH "official") with (Some (-0.833)). cbv zeta.
  destruct (first_round_lands theta ltac:(lra)) as (st & Hb & Hold & Hnew).
  assert (Hg0 : loop_guard loop_init = true).
  { unfold loop_guard, loop_init, fabs. cbn [utold utnew ct].
    destruct (Rgt_dec (Rabs (PI - 0)) 0.001) as [_|Hn]; [reflexivity |].
    exfalso. apply Hn. rewrite Rabs_pos_eq; lra. }
  assert (Hg1 : loop_guard st = false).
  { apply loop_guard_false. left. rewrite Hold, Hnew. unfold fabs.
    replace (0 - theta) with (- theta) by ring.
    rewrite Rabs_Ropp, Rabs_pos_eq; lra. }
  cbn [while_loop]. rewrite Hg0, Hb.
  assert (Hw : while_loop fuel
            (loop_body (ephem2000Day_of 2020 6 21) (sin (radians (-0.833)))
               (sin (radians 0)) (cos (radians 0))
               (radians (landing_longitude theta)) 1) st
          = Some (Ok st)).
  { destruct fuel; cbn [while_loop]; now rewrite Hg1. }
  now rewrite Hw, Hnew.
Qed.

Lemma unlucky_angle_small : 0 <= unlucky_angle <= 0.001.
Proof.
  unfold unlucky_angle, radians. pose proof PI_RGT_0 as Hp. pose proof PI_4 as H4.
  split; nra.
Qed.

Lemma lucky_angle_small : 0 <= lucky_angle <= 0.001.
Proof.
  unfold lucky_angle, radians. pose proof PI_RGT_0 as Hp. pose proof PI_4 as H4.
  split; nra.
Qed.

(** The splice of 00:00:00.99999975: the fraction of the second rounds
    to 1000000 microseconds, which [replace] refuses. *)
Lemma splice_unlucky (s : solver) (rs : R) :
  offsetUTC s = 0 ->
  get24HourLocalTime s rs (degrees unlucky_angle / 15)
  = Err (ValueError VE_microsecond_range).
Proof.
  intros Ho.
  assert (Hd : degrees unlucky_angle / 15 = 0.99999975 / 3600).
  { unfold unlucky_angle. rewrite degrees_radians. lra. }
  unfold get24HourLocalTime. cbv zeta. rewrite Hd, Ho.
  set (d := 0.99999975 / 3600 + 0).
  assert (Hdv : d = 0.99999975 / 3600) by (unfold d; lra).
  destruct (Rlt_dec d 0.0) as [H|_]; [lra |].
  destruct (Rgt_dec d 24.0) as [H|_]; [lra |].
  rewrite (int_unique_nonneg d 0%Z) by (cbn; lra).
  rewrite (int_unique_nonneg ((d - 0) * 60) 0%Z) by (cbn; lra).
  rewrite (int_unique_nonneg (((d - 0) * 60 - 0) * 60) 0%Z) by (cbn; lra).
  replace ((((d - 0) * 60 - 0) * 60 - 0) * 1000000) with 999999.75 by lra.
  unfold round. destruct (Rle_dec 0 999999.75) as [_|H]; [| lra].
  rewrite <- (Int_part_spec (999999.75 + / 2) 1000000) by lra.
  rewrite int_IZR. reflexivity.
Qed.

(** The splice of 00:00:01.5 succeeds. *)
Lemma splice_lucky (s : solver) (rs : R) :
  offsetUTC s = 0 ->
  get24HourLocalTime s rs (degrees lucky_angle / 15)
  = replace (dateLocal s) 0 0 1 500000.
Proof.
  intros Ho.
  assert (Hd : degrees lucky_angle / 15 = 1.5 / 3600).
  { unfold lucky_angle. rewrite degrees_radians. lra. }
  unfold get24HourLocalTime. cbv zeta. rewrite Hd, Ho.
  set (d := 1.5 / 3600 + 0).
  assert (Hdv : d = 1.5 / 3600) by (unfold d; lra).
  destruct (Rlt_dec d 0.0) as [H|_]; [lra |].
  destruct (Rgt_dec d 24.0) as [H|_]; [lra |].
  rewrite (int_unique_nonneg d 0%Z) by (cbn; lra).
  rewrite (int_unique_nonneg ((d - 0) * 60) 0%Z) by (cbn; lra).
  rewrite (int_unique_nonneg (((d - 0) * 60 - 0) * 60) 1%Z) by (cbn; lra).
  replace ((((d - 0) * 60 - 0) * 60 - 1) * 1000000) with 500000 by lra.
  unfold round. destruct (Rle_dec 0 500000) as [_|H]; [| lra].
  rewrite <- (Int_part_spec (500000 + / 2) 500000) by lra.
  rewrite int_IZR. reflexivity.
Qed.

(** A sunrise computation that returns: the instant carries the input
    date 2020-06-21 and the input offset. *)
Example sunrise_run_example :
  determineRiseOrSet MAX_ROUNDS (landing_solver lucky_angle)
    (ephem2000Day_of 2020 6 21) 1
  = Some (Ok (mkdatetime 2020 6 21 0 0 1 500000 (Some 0%Z))).
Proof.
  rewrite (sunrise_lands lucky_angle MAX_ROUNDS lucky_angle_small)
    by (unfold MAX_ROUNDS; lia).
  rewrite splice_lucky by exact utc_noon_offset.
  reflexivity.
Qed.

(** C9: for every accepted input the constructor's outcome is two
    [replace] calls on the input instant, one for sunrise and one for
    sunset, each setting hour, minute, second and microsecond only; so
    every instant either computation returns, and both instants of
    every object that is constructed, carry the year, month, day and
    tzinfo of the input instant, which is itself stored unchanged. *)
Theorem C9_events_on_input_date :
  forall (date : datetime) (latitude longitude : R) (name : string) (fuel : nat),
    accepted date latitude name -> (35 <= fuel)%nat ->
    (exists h1 m1 s1 u1 h2 m2 s2 u2 : Z,
       SunriseSunset_init fuel date latitude longitude name
       = Some (rise <- replace date h1 m1 s1 u1 ;;
               set <- replace date h2 m2 s2 u2 ;;
               Ok (mkSunriseSunset (solver_of date latitude longitude name) rise set))) /\
    (forall (rs : R) (dt : datetime),
       determineRiseOrSet fuel (solver_of date latitude longitude name)
         (ephem2000Day_of (year date) (month date) (day date)) rs = Some (Ok dt) ->
       same_day_and_zone dt date /\ valid_datetime dt = true) /\
    (forall o : SunriseSunset,
       SunriseSunset_init fuel date latitude longitude name = Some (Ok o) ->
       dateLocal (self o) = date /\
       same_day_and_zone (sunrise o) date /\
       same_day_and_zone (sunset o) date).
Proof.
  intros date latitude longitude name fuel Ha Hf.
  set (s := solver_of date latitude longitude name).
  assert (Has : accepted (dateLocal s) (lat s) (zenith s)) by exact Ha.
  assert (Hrun : forall rs, exists h mi sec us : Z,
            determineRiseOrSet fuel s
              (ephem2000Day_of (year date) (month date) (day date)) rs
            = Some (replace date h mi sec us)).
  { intros rs.
    destruct (determineRiseOrSet_runs s rs Has)
      as (a & k & st & _ & _ & _ & _ & _ & H).
    destruct (get24HourLocalTime_is_replace s rs (degrees (utnew st) / 15))
      as (h & mi & sec & us & E).
    exists h, mi, sec, us. change (dateLocal s) with date in E.
    rewrite <- E. exact (H fuel Hf). }
  assert (Hinit : exists h1 m1 s1 u1 h2 m2 s2 u2 : Z,
       SunriseSunset_init fuel date latitude longitude name
       = Some (rise <- replace date h1 m1 s1 u1 ;;
               set <- replace date h2 m2 s2 u2 ;;
               Ok (mkSunriseSunset s rise set))).
  { pose proof Ha as (Hv & Haw & Hz & Hlat).
    unfold SunriseSunset_init. unfold aware in Haw.
    destruct (tzinfo date) as [off|] eqn:Etz; [| discriminate].
    rewrite Hz. cbn [negb].
    destruct (Rgt_dec (Rabs latitude) 63) as [Hbig|_]; [lra |].
    fold (solver_of date latitude longitude name). fold s.
    destruct (Hrun 1) as (h1 & m1 & s1 & u1 & E1).
    destruct (Hrun (-1)) as (h2 & m2 & s2 & u2 & E2).
    exists h1, m1, s1, u1, h2, m2, s2, u2.
    unfold determineRiseSet. cbv zeta.
    change (dateLocal s) with date. rewrite E1, E2.
    destruct (replace date h1 m1 s1 u1) as [rise|e1]; [| reflexivity].
    destruct (replace date h2 m2 s2 u2) as [set|e2]; reflexivity. }
  split; [exact Hinit |]. split.
  - intros rs dt Hdt.
    destruct (Hrun rs) as (h & mi & sec & us & E).
    rewrite E in Hdt. injection Hdt as Hdt.
    split; [exact (proj1 (replace_frame _ _ _ _ _ _ Hdt)) |].
    destruct Ha as (Hv & _). exact (replace_valid _ _ _ _ _ _ Hv Hdt).
  - intros o Ho.
    destruct Hinit as (h1 & m1 & s1 & u1 & h2 & m2 & s2 & u2 & E).
    rewrite E in Ho.
    destruct (replace date h1 m1 s1 u1) as [rise|e1] eqn:R1; [| discriminate].
    destruct (replace date h2 m2 s2 u2) as [set|e2] eqn:R2; [| discriminate].
    cbn [bind] in Ho. injection Ho as <-. cbn.
    split; [reflexivity |].
    split; [exact (proj1 (replace_frame _ _ _ _ _ _ R1))
           | exact (proj1 (replace_frame _ _ _ _ _ _ R2))].
Qed.

Lemma C9_events_on_input_date_witness :
  same_day_and_zone (mkdatetime 2020 6 21 0 0 1 500000 (Some 0%Z)) utc_noon /\
  valid_datetime (mkdatetime 2020 6 21 0 0 1 500000 (Some 0%Z)) = true.
Proof.
  exact (proj1 (proj2 (C9_events_on_input_date utc_noon 0 (landing_longitude lucky_angle)
                         "official" MAX_ROUNDS utc_noon_accepted (le_n 35)))
               1 _ sunrise_run_example).
Defined.

(** C2 fails on the code: the instant is timezone-aware, the zenith is
    "official" and the latitude is 0, so the input is valid, yet the
    constructor raises.  At this longitude the first round estimates
    sunrise at 00:00:00.99999975 UTC and the loop stops; the fraction of
    the second is rounded to 1000000 microseconds and [replace] raises
    ValueError ("microsecond must be in 0..999999"), an error that is
    none of the three the constructor raises itself. *)
Theorem C2_valid_input_raises :
  accepted utc_noon 0 "official" /\
  is_InvalidInputError (ValueError VE_microsecond_range) = false /\
  forall fuel : nat, (1 <= fuel)%nat ->
    SunriseSunset_init fuel utc_noon 0 unlucky_longitude "official"
    = Some (Err (ValueError VE_microsecond_range)).
Proof.
  split; [exact utc_noon_accepted |]. split; [reflexivity |].
  intros fuel Hf.
  unfold SunriseSunset_init. cbn [tzinfo utc_noon].
  change (dict_contains ZENITH "official") with true. cbn [negb].
  destruct (Rgt_dec (Rabs 0) 63) as [H|_]; [rewrite Rabs_R0 in H; lra |].
  change (determineRiseSet fuel (landing_solver unlucky_angle)
          = Some (Err (ValueError VE_microsecond_range))).
  unfold determineRiseSet. cbv zeta.
  change (year (dateLocal (landing_solver unlucky_angle))) with 2020%Z.
  change (month (dateLocal (landing_solver unlucky_angle))) with 6%Z.
  change (day (dateLocal (landing_solver unlucky_angle))) with 21%Z.
  rewrite (sunrise_lands unlucky_angle fuel unlucky_angle_small Hf).
  rewrite splice_unlucky by exact utc_noon_offset.
  reflexivity.
Qed.

End SolverProperties.

(** ** Further properties of the solver *)

Section SolverAngles.

Local Open Scope R_scope.

(** [atan2] of a cosine's matching sine and the cosine is the arc
    cosine: an angle in [0, PI] with that cosine. *)
Lemma atan2_arccos (c : R) :
  -1 <= c <= 1 ->
  0 <= atan2 (sqrt (1 - c * c)) c <= PI /\ cos (atan2 (sqrt (1 - c * c)) c) = c.
Proof.
  intros Hc. pose proof PI_RGT_0 as Hp.
  assert (Hnn : 0 <= 1 - c * c) by nra.
  pose proof (sqrt_pos (1 - c * c)) as Hr.
  set (r := sqrt (1 - c * c)) in *.
  assert (Hrr : r * r = 1 - c * c) by (apply sqrt_sqrt; exact Hnn).
  pose proof (atan_bound (r / c)) as Hb.
  unfold atan2.
  destruct (Rlt_dec 0 c) as [Hpos|Hnpos].
  - assert (Hq : 0 <= r / c).
    { apply Rmult_le_pos; [exact Hr | left; now apply Rinv_0_lt_compat]. }
    assert (Ha : 0 <= atan (r / c)).
    { destruct Hq as [Hq|Hq]; [left; rewrite <- atan_0; now apply atan_increasing
                              | rewrite <- Hq, atan_0; lra]. }
    split; [lra |].
    rewrite cos_atan.
    replace (1 + (r / c)²) with ((/ c)²).
    + rewrite sqrt_Rsqr by (left; now apply Rinv_0_lt_compat). field. lra.
    + unfold Rsqr. apply (Rmult_eq_reg_r (c * c)); [| nra]. field_simplify; nra.
  - destruct (Rlt_dec c 0) as [Hneg|Hnneg].
    + assert (Hq : r / c <= 0).
      { replace (r / c) with (- (r * / (- c))) by (field; lra).
        assert (0 <= r * / (- c)).
        { apply Rmult_le_pos; [exact Hr | left; apply Rinv_0_lt_compat; lra]. }
        lra. }
      assert (Ha : atan (r / c) <= 0).
      { destruct Hq as [Hq|Hq]; [left; rewrite <- atan_0; now apply atan_increasing
                                | rewrite Hq, atan_0; lra]. }
      assert (Hcos : cos (atan (r / c)) = - c).
      { rewrite cos_atan.
        replace (1 + (r / c)²) with ((/ (- c))²).
        - rewrite sqrt_Rsqr by (left; apply Rinv_0_lt_compat; lra). field. lra.
        - unfold Rsqr. apply (Rmult_eq_reg_r (c * c)); [| nra].
          replace (/ - c * / - c * (c * c)) with 1 by (field; lra).
          replace ((1 + r / c * (r / c)) * (c * c)) with (c * c + r * r) by (field; lra).
          lra. }
      destruct (Rle_dec 0 r) as [_|Hn]; [| contradiction].
      split; [lra |]. rewrite neg_cos. lra.
    + assert (Hc0 : c = 0) by lra. subst c.
      assert (Hr1 : r = 1).
      { assert (r * r = 1) by lra. nra. }
      destruct (Rlt_dec 0 r) as [_|Hn]; [| lra].
      split; [lra | apply cos_PI2].
Qed.

(** X2: the hour-angle correction never raises; it lies in [0, PI]; for
    a cosc within [-1, 1] it is the angle in [0, PI] whose cosine is
    cosc, above 1 it is 0 and below -1 it is PI. *)
Theorem X2_hour_correction_is_clamped_arccos :
  forall cosc : R,
    exists c : R,
      hour_correction cosc = Ok c /\ 0 <= c <= PI /\
      (-1 <= cosc <= 1 -> cos c = cosc) /\
      (1 < cosc -> c = 0) /\ (cosc < -1 -> c = PI).
Proof.
  intros cosc. pose proof PI_RGT_0 as Hp. unfold hour_correction.
  destruct (Rgt_dec cosc 1) as [Hhi|Hhi].
  - exists 0. repeat split; intros; lra.
  - destruct (Rlt_dec cosc (-1)) as [Hlo|Hlo].
    + exists PI. repeat split; intros; lra.
    + assert (Hc : -1 <= cosc <= 1) by lra.
      destruct (atan2_arccos cosc Hc) as [Hrange Hcos].
      unfold math_sqrt. destruct (Rlt_dec (1 - cosc * cosc) 0) as [Hneg|_]; [nra |].
      cbn [bind]. eexists. split; [reflexivity |].
      split; [exact Hrange |]. split; [intros _; exact Hcos |]. split; intros; lra.
Qed.

Lemma X2_hour_correction_is_clamped_arccos_witness :
  exists c : R, hour_correction 0 = Ok c /\ cos c = 0.
Proof.
  destruct (X2_hour_correction_is_clamped_arccos 0) as (c & Hc & _ & Hcos & _).
  exists c. split; [exact Hc | apply Hcos; lra].
Defined.

End SolverAngles.

(** ** The splice of the time of day *)

Section Splice.

Local Open Scope R_scope.

Lemma round_near (y : R) : Rabs (round y - y) <= / 2.
Proof.
  unfold round. destruct (Rle_dec 0 y) as [Hy|Hy].
  - destruct (base_Int_part (y + / 2)) as [H1 H2].
    apply Rabs_le. lra.
  - destruct (base_Int_part (- y + / 2)) as [H1 H2].
    rewrite opp_IZR. apply Rabs_le. lra.
Qed.

Lemma int_round (y : R) : IZR (int (round y)) = round y.
Proof. unfold round. destruct (Rle_dec 0 y); now rewrite int_IZR. Qed.

Lemma int_range (x : R) (n : Z) :
  0 <= x < IZR n -> (0 <= int x <= n - 1)%Z.
Proof.
  intros [H0 Hn]. destruct (int_nonneg x H0) as [H1 H2].
  split.
  - destruct (Z.le_gt_cases 0 (int x)) as [H|H]; [exact H |].
    assert (Hz : (int x <= -1)%Z) by lia. apply IZR_le in Hz. lra.
  - destruct (Z.le_gt_cases (int x) (n - 1)) as [H|H]; [exact H |].
    assert (Hz : (n <= int x)%Z) by lia. apply IZR_le in Hz. lra.
Qed.

(** [__get24HourLocalTime] in terms of the corrected decimal hour. *)
Lemma get24HourLocalTime_fields (s : solver) (rs d : R) :
  let w := wrap24 (d + offsetUTC s) in
  let h := int w in
  let mi := int ((w - IZR h) * 60) in
  let sec := int (((w - IZR h) * 60 - IZR mi) * 60) in
  let f := ((w - IZR h) * 60 - IZR mi) * 60 - IZR sec in
  get24HourLocalTime s rs d
  = replace (dateLocal s) h mi sec (int (round (f * 1000000))).
Proof. reflexivity. Qed.



(** In [0, 24) the splice is decided by the fraction of the second. *)
Lemma splice_window :
  forall (s : solver) (rs d : R),
    0 <= wrap24 (d + offsetUTC s) < 24 ->
    (frac_part (wrap24 (d + offsetUTC s) * 3600) < 0.9999995 ->
     exists dt, get24HourLocalTime s rs d = Ok dt) /\
    (0.9999995 <= frac_part (wrap24 (d + offsetUTC s) * 3600) ->
     get24HourLocalTime s rs d = Err (ValueError VE_microsecond_range)).
Proof.
  intros s rs d Hw. rewrite get24HourLocalTime_fields. cbv zeta.
  set (w := wrap24 (d + offsetUTC s)) in *.
  set (h := int w).
  pose proof (int_range w 24 Hw) as Hh. fold h in Hh.
  destruct (int_nonneg w (proj1 Hw)) as [Hh1 Hh2]. fold h in Hh1, Hh2.
  set (t1 := (w - IZR h) * 60).
  assert (Ht1 : 0 <= t1 < 60) by (unfold t1; lra).
  set (mi := int t1).
  pose proof (int_range t1 60 Ht1) as Hm. fold mi in Hm.
  destruct (int_nonneg t1 (proj1 Ht1)) as [Hm1 Hm2]. fold mi in Hm1, Hm2.
  set (t2 := (t1 - IZR mi) * 60).
  assert (Ht2 : 0 <= t2 < 60) by (unfold t2; lra).
  set (sec := int t2).
  pose proof (int_range t2 60 Ht2) as Hs. fold sec in Hs.
  destruct (int_nonneg t2 (proj1 Ht2)) as [Hs1 Hs2]. fold sec in Hs1, Hs2.
  set (f := t2 - IZR sec).
  assert (Hf : 0 <= f < 1) by (unfold f; lra).
  assert (Hfrac : frac_part (w * 3600) = f).
  { destruct (Int_part_frac_part_spec (w * 3600) ((h * 60 + mi) * 60 + sec)%Z f Hf)
      as [_ Hfp].
    - rewrite plus_IZR, mult_IZR, plus_IZR, mult_IZR. unfold f, t2, t1. ring.
    - now symmetry. }
  rewrite Hfrac.
  assert (Hus : int (round (f * 1000000)) = Int_part (f * 1000000 + / 2)).
  { unfold round. destruct (Rle_dec 0 (f * 1000000)) as [_|Hn]; [| lra].
    apply int_IZR. }
  rewrite Hus.
  destruct (base_Int_part (f * 1000000 + / 2)) as [Hu1 Hu2].
  set (us := Int_part (f * 1000000 + / 2)) in *.
  assert (Hus0 : (0 <= us)%Z).
  { destruct (Z.le_gt_cases 0 us) as [H|H]; [exact H |].
    assert (Hz : (us <= -1)%Z) by lia. apply IZR_le in Hz. lra. }
  unfold replace.
  replace ((0 <=? h) && (h <=? 23))%Z with true
    by (symmetry; apply andb_true_iff; split; apply Z.leb_le; lia).
  replace ((0 <=? mi) && (mi <=? 59))%Z with true
    by (symmetry; apply andb_true_iff; split; apply Z.leb_le; lia).
  replace ((0 <=? sec) && (sec <=? 59))%Z with true
    by (symmetry; apply andb_true_iff; split; apply Z.leb_le; lia).
  cbn [negb].
  split; intros Hwin.
  - assert (Hlt : (us <= 999999)%Z).
    { destruct (Z.le_gt_cases us 999999) as [H|H]; [exact H |].
      assert (Hz : (1000000 <= us)%Z) by lia. apply IZR_le in Hz. lra. }
    replace ((0 <=? us) && (us <=? 999999))%Z with true
      by (symmetry; apply andb_true_iff; split; apply Z.leb_le; lia).
    cbn [negb]. eexists; reflexivity.
  - assert (Hge : (1000000 <= us)%Z).
    { destruct (Z.le_gt_cases 1000000 us) as [H|H]; [exact H |].
      assert (Hz : (us <= 999999)%Z) by lia. apply IZR_le in Hz. lra. }
    replace ((0 <=? us) && (us <=? 999999))%Z with false; [reflexivity |].
    symmetry. apply andb_false_iff. right. apply Z.leb_gt. lia.
Qed.

End Splice.

(** ** Outcomes of the constructor *)

Section ConstructorOutcomes.

Local Open Scope R_scope.

(** Hour and minute differences stay within 23 hours 59 minutes. *)
Lemma offsetUTC_of_bound :
  forall (date : datetime) (off : Z),
    valid_datetime date = true -> tzinfo date = Some off ->
    -24 < offsetUTC_of date < 24 /\
    exists n : Z, offsetUTC_of date = IZR n / 60.
Proof.
  intros date off Hv Hz.
  pose proof (valid_datetime_fields _ Hv) as (_ & _ & Hh & Hm & _).
  pose proof (utc_hour_minute date off Hz) as [Huh Hum].
  unfold offsetUTC_of. cbv zeta. rewrite Huh, Hum.
  change (item (timetuple date) 3) with (hour date).
  change (item (timetuple date) 4) with (minute date).
  set (mm := (hour date * 60 + minute date - off)%Z).
  assert (Hu : (0 <= mm mod 1440 / 60 <= 23)%Z)
    by (Z.to_euclidean_division_equations; lia).
  assert (Hn : (0 <= mm mod 60 <= 59)%Z)
    by (Z.to_euclidean_division_equations; lia).
  set (dh := (hour date - mm mod 1440 / 60)%Z) in *.
  set (dm := (minute date - mm mod 60)%Z) in *.
  assert (Hdh : (-23 <= dh <= 23)%Z) by (unfold dh; lia).
  assert (Hdm : (-59 <= dm <= 59)%Z) by (unfold dm; lia).
  destruct Hdh as [Hdh1 Hdh2], Hdm as [Hdm1 Hdm2].
  apply IZR_le in Hdh1, Hdh2, Hdm1, Hdm2.
  replace 60.0 with 60 by lra.
  split; [lra |].
  exists (dh * 60 + dm)%Z. rewrite plus_IZR, mult_IZR. lra.
Qed.



(** The value handed to the splice is a UTC hour in [0, 24). *)
Lemma determineRiseOrSet_hour (s : solver) (rs : R) :
  accepted (dateLocal s) (lat s) (zenith s) ->
  exists d : R,
    0 <= d < 24 /\
    forall fuel, (35 <= fuel)%nat ->
      determineRiseOrSet fuel s
        (ephem2000Day_of (year (dateLocal s)) (month (dateLocal s)) (day (dateLocal s)))
        rs
      = Some (get24HourLocalTime s rs d).
Proof.
  intros Ha. pose proof PI_RGT_0 as Hp.
  destruct (accepted_altitude s Ha) as (altitude & Halt).
  destruct Ha as (Hv & _ & _ & Hlat).
  pose proof (ephem2000Day_bound _ Hv) as He.
  pose proof (cos_radians_pos _ Hlat) as Hc.
  destruct (loop_terminates _ (sin (radians altitude)) (sin (radians (lat s)))
              (cos (radians (lat s))) (radians (lon s)) rs He Hc 35 loop_init
              (loop_init_inv) ltac:(cbn; lia))
    as (k & st & Hk & _ & Hi & _ & _ & Hfuel).
  exists (degrees (utnew st) / 15). split.
  - unfold loop_inv in Hi. unfold degrees.
    assert (Hd : utnew st * (180 / PI) / 15 = utnew st * 12 / PI) by (field; lra).
    rewrite Hd. split.
    + apply Rmult_le_pos; [lra | left; now apply Rinv_0_lt_compat].
    + apply (Rmult_lt_reg_r PI); [exact Hp |].
      replace (utnew st * 12 / PI * PI) with (utnew st * 12) by (field; lra). lra.
  - intros fuel Hf. unfold determineRiseOrSet. rewrite Halt. cbv zeta.
    rewrite (Hfuel fuel ltac:(lia)). reflexivity.
Qed.

(** An hour in [0, 24) plus an offset short of a day: the splice either
    returns or raises for the hour 24 or the microsecond 1000000. *)
Lemma get24HourLocalTime_errors (s : solver) (rs d : R) (e : exn) :
  0 <= d < 24 -> -24 < offsetUTC s < 24 ->
  get24HourLocalTime s rs d = Err e ->
  (e = ValueError VE_hour_range /\ d + offsetUTC s = 24) \/
  e = ValueError VE_microsecond_range.
Proof.
  intros Hd Ho He.
  destruct (Req_dec (d + offsetUTC s) 24) as [H24|H24].
  - left. split; [| exact H24].
    rewrite get24HourLocalTime_fields in He. cbv zeta in He.
    assert (Hw : wrap24 (d + offsetUTC s) = 24).
    { unfold wrap24. rewrite H24.
      destruct (Rlt_dec 24 0.0); [lra |]. destruct (Rgt_dec 24 24.0); lra. }
    rewrite Hw in He. change 24 with (IZR 24) in He at 1. rewrite int_IZR in He.
    unfold replace in He. cbn in He. now injection He as <-.
  - right.
    assert (Hw : 0 <= wrap24 (d + offsetUTC s) < 24).
    { unfold wrap24. destruct (Rlt_dec (d + offsetUTC s) 0.0); [lra |].
      destruct (Rgt_dec (d + offsetUTC s) 24.0); lra. }
    destruct (splice_window s rs d Hw) as [Hok Hbad].
    destruct (Rlt_dec (frac_part (wrap24 (d + offsetUTC s) * 3600)) 0.9999995) as [Hl|Hl].
    + destruct (Hok Hl) as (dt & Hdt). rewrite Hdt in He. discriminate.
    + rewrite Hbad in He by lra. now injection He as <-.
Qed.

(** X6: for every accepted input whose latitude and longitude are
    finite numbers the constructor finishes, and if it raises, then only
    from the splice: ValueError for the hour 24 or for the microsecond
    1000000.  It never divides by zero, never takes the square root of a
    negative number, never misses the zenith key and never produces a
    minute or second out of range.  (Infinite and NaN coordinates are
    outside the real numbers of this statement.) *)
Theorem X6_accepted_input_failure_modes :
  forall (date : datetime) (latitude longitude : R) (name : string) (fuel : nat),
    accepted date latitude name -> (35 <= fuel)%nat ->
    exists r : result SunriseSunset,
      SunriseSunset_init fuel date latitude longitude name = Some r /\
      forall e : exn, r = Err e ->
        e = ValueError VE_hour_range \/ e = ValueError VE_microsecond_range.
Proof.
  intros date latitude longitude name fuel Ha Hf.
  pose proof Ha as (Hv & Haw & Hz & Hlat).
  set (s := solver_of date latitude longitude name).
  assert (Has : accepted (dateLocal s) (lat s) (zenith s)) by exact Ha.
  assert (Ho : -24 < offsetUTC s < 24).
  { unfold aware in Haw. destruct (tzinfo date) as [off|] eqn:Etz; [| discriminate].
    exact (proj1 (offsetUTC_of_bound date off Hv Etz)). }
  assert (Hrun : forall rs, exists r : result datetime,
            determineRiseOrSet fuel s
              (ephem2000Day_of (year date) (month date) (day date)) rs = Some r /\
            forall e, r = Err e ->
              e = ValueError VE_hour_range \/ e = ValueError VE_microsecond_range).
  { intros rs. destruct (determineRiseOrSet_hour s rs Has) as (d & Hd & Hrun).
    eexists. split; [exact (Hrun fuel Hf) |].
    intros e He. destruct (get24HourLocalTime_errors s rs d e Hd Ho He) as [[H _]|H];
      [now left | now right]. }
  unfold SunriseSunset_init. unfold aware in Haw.
  destruct (tzinfo date) as [off|] eqn:Etz; [| discriminate].
  rewrite Hz. cbn [negb].
  destruct (Rgt_dec (Rabs latitude) 63) as [Hbig|_]; [lra |].
  fold (solver_of date latitude longitude name). fold s.
  unfold determineRiseSet. cbv zeta. change (dateLocal s) with date.
  destruct (Hrun 1) as (r1 & -> & H1).
  destruct r1 as [rise|e1].
  - destruct (Hrun (-1)) as (r2 & -> & H2).
    destruct r2 as [set|e2].
    + eexists. split; [reflexivity |]. intros e He. discriminate.
    + eexists. split; [reflexivity |]. intros e He. injection He as <-. now apply H2.
  - eexists. split; [reflexivity |]. intros e He. injection He as <-. now apply H1.
Qed.

Lemma X6_accepted_input_failure_modes_witness :
  exists r : result SunriseSunset,
    SunriseSunset_init MAX_ROUNDS utc_noon 0 unlucky_longitude "official" = Some r.
Proof.
  destruct (X6_accepted_input_failure_modes utc_noon 0 unlucky_longitude "official"
              MAX_ROUNDS utc_noon_accepted (le_n 35)) as (r & Hr & _).
  exists r. exact Hr.
Defined.

(** X7: the three errors of the constructor are raised in the order of
    its tests and for nothing else: a naive instant gives the tzinfo
    error whatever the zenith and latitude; an aware instant with an
    unknown zenith gives the zenith error whatever the latitude; an
    aware instant with a known zenith and a latitude beyond 63 degrees
    gives the latitude error; and every other input raises none of the
    three. *)
Theorem X7_validation_order :
  forall (fuel : nat) (date : datetime) (latitude longitude : R) (name : string),
    (tzinfo date = None ->
     SunriseSunset_init fuel date latitude longitude name
     = Some (Err (ValueError VE_date_needs_tzinfo))) /\
    (aware date = true -> dict_contains ZENITH name = false ->
     SunriseSunset_init fuel date latitude longitude name
     = Some (Err (ValueError VE_invalid_zenith))) /\
    (aware date = true -> dict_contains ZENITH name = true -> Rabs latitude > 63 ->
     SunriseSunset_init fuel date latitude longitude name
     = Some (Err (ValueError VE_invalid_latitude))) /\
    (aware date = true -> dict_contains ZENITH name = true -> Rabs latitude <= 63 ->
     forall e : exn,
       SunriseSunset_init fuel date latitude longitude name = Some (Err e) ->
       is_InvalidInputError e = false).
Proof.
  intros fuel date latitude longitude name. unfold SunriseSunset_init, aware.
  split; [| split; [| split]].
  - intros ->. reflexivity.
  - intros Ha Hz. destruct (tzinfo date); [| discriminate]. now rewrite Hz.
  - intros Ha Hz Hl. destruct (tzinfo date); [| discriminate]. rewrite Hz. cbn [negb].
    destruct (Rgt_dec (Rabs latitude) 63); [reflexivity | contradiction].
  - intros Ha Hz Hl e. destruct (tzinfo date); [| discriminate]. rewrite Hz. cbn [negb].
    destruct (Rgt_dec (Rabs latitude) 63) as [Hbig|_]; [lra |].
    apply determineRiseSet_error.
Qed.

Lemma X7_validation_order_witness :
  SunriseSunset_init MAX_ROUNDS (clock 12 0) 64 0 "noon"
  = Some (Err (ValueError VE_date_needs_tzinfo)) /\
  SunriseSunset_init MAX_ROUNDS (local_clock 12 0) 64 0 "noon"
  = Some (Err (ValueError VE_invalid_zenith)) /\
  SunriseSunset_init MAX_ROUNDS (local_clock 12 0) 64 0 "civil"
  = Some (Err (ValueError VE_invalid_latitude)).
Proof.
  split; [| split].
  - apply (proj1 (X7_validation_order MAX_ROUNDS (clock 12 0) 64 0 "noon")).
    reflexivity.
  - apply (proj1 (proj2 (X7_validation_order MAX_ROUNDS (local_clock 12 0) 64 0 "noon")));
      reflexivity.
  - apply (proj1 (proj2 (proj2
             (X7_validation_order MAX_ROUNDS (local_clock 12 0) 64 0 "civil"))));
      try reflexivity.
    exact (proj1 latitude_gate).
Defined.

End ConstructorOutcomes.

(** ** The day count and the collar *)

Section DayCount.

Local Open Scope Z_scope.

Lemma day_count_checked : forall_range 12 0 (199 * 12) day_count_ok = true.
Proof. vm_compute. reflexivity. Qed.

(** X8: for every month of the years 1901 to 2099 the day count of
    line 95 agrees with the calendar: it is the number of days from
    2000-01-01 to the date, less the half day to noon. *)
Theorem X8_ephem2000Day_counts_days :
  forall y m d : Z,
    1901 <= y <= 2099 -> 1 <= m <= 12 ->
    ephem2000Day_of y m d = (IZR (ymd2ord y m d - ymd2ord 2000 1 1) - 0.5)%R.
Proof.
  intros y m d Hy Hm.
  pose proof (forall_range_spec _ _ _ _ day_count_checked ((y - 1901) * 12 + (m - 1))
                ltac:(lia)) as Hc.
  unfold day_count_ok in Hc. cbv zeta in Hc.
  replace (1901 + ((y - 1901) * 12 + (m - 1)) / 12) with y in Hc
    by (Z.to_euclidean_division_equations; lia).
  replace (1 + ((y - 1901) * 12 + (m - 1)) mod 12) with m in Hc
    by (Z.to_euclidean_division_equations; lia).
  apply Z.eqb_eq in Hc.
  unfold ephem2000Day_of.
  change (ymd2ord 2000 1 1) with 730120.
  assert (Hd : ymd2ord y m d = ymd2ord y m 0 + d) by (unfold ymd2ord; ring).
  set (n := 367 * y - 7 * (y + (m + 9) / 12) / 4 + 275 * m / 9) in *.
  replace (ymd2ord y m d - 730120) with (n + d - 730531) by lia.
  rewrite minus_IZR. lra.
Qed.

Lemma X8_ephem2000Day_counts_days_witness :
  ephem2000Day_of 2020 6 21 = (IZR (ymd2ord 2020 6 21 - ymd2ord 2000 1 1) - 0.5)%R.
Proof. apply X8_ephem2000Day_counts_days; lia. Defined.

End DayCount.

Section CollarOrder.

Local Open Scope Z_scope.

Variable o : SunriseSunset.
Hypothesis valid_now : valid_datetime (dateLocal (self o)) = true.
Hypothesis valid_sunrise : valid_datetime (sunrise o) = true.
Hypothesis valid_sunset : valid_datetime (sunset o) = true.
Hypothesis aware_now : aware (dateLocal (self o)) = true.
Hypothesis aware_sunrise : aware (sunrise o) = true.
Hypothesis aware_sunset : aware (sunset o) = true.

Lemma representable_smaller_collar (c1 c2 : Z) :
  0 <= c1 <= c2 ->
  representable (timestamp (sunrise o) - c2 * 60000000) = true ->
  representable (timestamp (sunset o) + c2 * 60000000) = true ->
  representable (timestamp (sunrise o) - c1 * 60000000) = true /\
  representable (timestamp (sunset o) + c1 * 60000000) = true.
Proof.
  intros Hc H1 H2.
  pose proof (timestamp_bound _ valid_sunrise) as Br.
  pose proof (timestamp_bound _ valid_sunset) as Bs.
  unfold representable in *.
  rewrite andb_true_iff, Z.leb_le, Z.ltb_lt in *. lia.
Qed.

Lemma isNight_smaller_collar (c1 c2 : Z) :
  0 <= c1 <= c2 ->
  representable (timestamp (sunrise o) - c2 * 60000000) = true ->
  representable (timestamp (sunset o) + c2 * 60000000) = true ->
  isNight o c2 = Ok true -> isNight o c1 = Ok true.
Proof.
  intros Hc H1 H2.
  destruct (representable_smaller_collar c1 c2 Hc H1 H2) as [R1 R2].
  rewrite (isNight_value o c2 valid_now valid_sunrise valid_sunset aware_now
             aware_sunrise aware_sunset ltac:(lia) H1 H2).
  rewrite (isNight_value o c1 valid_now valid_sunrise valid_sunset aware_now
             aware_sunrise aware_sunset ltac:(lia) R1 R2).
  intros H. injection H as H. f_equal.
  apply orb_true_iff in H. apply orb_true_iff.
  rewrite !Z.ltb_lt in *. lia.
Qed.

End CollarOrder.

(** X9: widening the collar only widens the day: if [isNight] answers
    night with a collar, it answers night with every smaller collar
    (down to 0) as well. *)
Theorem X9_isNight_collar_antitone :
  forall (o : SunriseSunset) (c1 c2 : Z),
    valid_datetime (dateLocal (self o)) = true ->
    valid_datetime (sunrise o) = true ->
    valid_datetime (sunset o) = true ->
    aware (dateLocal (self o)) = true ->
    aware (sunrise o) = true ->
    aware (sunset o) = true ->
    0 <= c1 <= c2 ->
    representable (timestamp (sunrise o) - c2 * 60000000) = true ->
    representable (timestamp (sunset o) + c2 * 60000000) = true ->
    isNight o c2 = Ok true -> isNight o c1 = Ok true.
Proof. intros o c1 c2 V1 V2 V3 A1 A2 A3. now apply isNight_smaller_collar. Qed.

Lemma X9_isNight_collar_antitone_witness :
  isNight (events_at (local_clock 5 0) (local_clock 6 0) (local_clock 18 0)) 0 = Ok true.
Proof.
  apply (X9_isNight_collar_antitone
           (events_at (local_clock 5 0) (local_clock 6 0) (local_clock 18 0)) 0 30);
    try reflexivity. lia.
Defined.

Section IsNightEdges.

Local Open Scope Z_scope.

Lemma datetime_add_overflow (dt : datetime) (td : timedelta) :
  representable (timestamp dt + td) = false ->
  datetime_add dt td = Err OverflowError.
Proof.
  intros Hr. unfold datetime_add. cbv zeta.
  set (t := timestamp dt + td) in *.
  unfold representable in Hr. rewrite andb_false_iff, Z.leb_gt, Z.ltb_ge in Hr.
  unfold MAXORDINAL, US_PER_DAY in *.
  destruct (Z.leb_spec 1 (t / 86400000000 + 1)) as [H1|H1];
    destruct (Z.leb_spec (t / 86400000000 + 1) 3652059) as [H2|H2];
    cbn [andb]; try reflexivity.
  exfalso. revert H1 H2. Z.to_euclidean_division_equations. lia.
Qed.

Variable o : SunriseSunset.
Variable collar : Z.
Hypothesis valid_now : valid_datetime (dateLocal (self o)) = true.
Hypothesis valid_sunrise : valid_datetime (sunrise o) = true.
Hypothesis valid_sunset : valid_datetime (sunset o) = true.
Hypothesis aware_now : aware (dateLocal (self o)) = true.
Hypothesis aware_sunrise : aware (sunrise o) = true.
Hypothesis collar_range : 0 <= collar <= 1000000000000.

Lemma isNight_early_overflow :
  representable (timestamp (sunrise o) - collar * 60000000) = false ->
  isNight o collar = Err OverflowError.
Proof.
  intros Hr. unfold isNight.
  rewrite (timedelta_minutes_ok _ collar_range). cbn [bind].
  unfold datetime_sub. rewrite datetime_add_overflow; [reflexivity |].
  replace (timestamp (sunrise o) + - (collar * 60000000))
    with (timestamp (sunrise o) - collar * 60000000) by ring.
  exact Hr.
Qed.

Lemma isNight_late_overflow :
  representable (timestamp (sunrise o) - collar * 60000000) = true ->
  representable (timestamp (sunset o) + collar * 60000000) = false ->
  isNight o collar =
  if utc_instant (dateLocal (self o)) <? utc_instant (sunrise o) - collar * 60000000
  then Ok true else Err OverflowError.
Proof.
  intros He Hl. unfold isNight.
  rewrite (timedelta_minutes_ok _ collar_range). cbn [bind].
  unfold datetime_sub.
  destruct (datetime_add_spec (sunrise o) (- (collar * 60000000)) valid_sunrise)
    as (early & -> & Ve & Te & Ze).
  { replace (timestamp (sunrise o) + - (collar * 60000000))
      with (timestamp (sunrise o) - collar * 60000000) by ring.
    exact He. }
  cbn [bind].
  assert (Ae : aware early = true) by (unfold aware; rewrite Ze; exact aware_sunrise).
  rewrite (datetime_gt_instant early (dateLocal (self o)) Ve valid_now Ae aware_now).
  cbn [bind].
  assert (Ie : utc_instant early = utc_instant (sunrise o) - collar * 60000000).
  { unfold utc_instant. rewrite Te, Ze. ring. }
  rewrite Ie.
  destruct (utc_instant (dateLocal (self o))
            <? utc_instant (sunrise o) - collar * 60000000); [reflexivity |].
  now rewrite (datetime_add_overflow _ _ Hl).
Qed.

End IsNightEdges.

(** X10: [isNight] at the ends of the calendar.  When sunrise - collar
    falls before year 1 the call raises [OverflowError], whatever the
    time is.  When only sunset + collar falls after year 9999 the call
    still answers night before sunrise - collar, because [or] never
    evaluates its right operand there, and raises [OverflowError] at
    every later time. *)
Theorem X10_isNight_calendar_ends :
  forall (o : SunriseSunset) (collar : Z),
    valid_datetime (dateLocal (self o)) = true ->
    valid_datetime (sunrise o) = true ->
    valid_datetime (sunset o) = true ->
    aware (dateLocal (self o)) = true ->
    aware (sunrise o) = true ->
    0 <= collar <= 1000000000000 ->
    (representable (timestamp (sunrise o) - collar * 60000000) = false ->
     isNight o collar = Err OverflowError) /\
    (representable (timestamp (sunrise o) - collar * 60000000) = true ->
     representable (timestamp (sunset o) + collar * 60000000) = false ->
     isNight o collar =
     if utc_instant (dateLocal (self o)) <? utc_instant (sunrise o) - collar * 60000000
     then Ok true else Err OverflowError).
Proof.
  intros o collar Vn Vr Vs An Ar Hc. split.
  - now apply isNight_early_overflow.
  - now apply isNight_late_overflow.
Qed.

Lemma X10_isNight_calendar_ends_witness :
  isNight (events_at (year_one 23 0) (year_one 0 10) (year_one 0 20)) 30
    = Err OverflowError /\
  isNight (events_at (last_year 5 0) (last_year 6 0) (last_year 23 50)) 30 = Ok true /\
  isNight (events_at (last_year 12 0) (last_year 6 0) (last_year 23 50)) 30
    = Err OverflowError.
Proof.
  split; [| split].
  - apply (proj1 (X10_isNight_calendar_ends
                    (events_at (year_one 23 0) (year_one 0 10) (year_one 0 20)) 30
                    eq_refl eq_refl eq_refl eq_refl eq_refl ltac:(lia))).
    reflexivity.
  - apply (proj2 (X10_isNight_calendar_ends
                    (events_at (last_year 5 0) (last_year 6 0) (last_year 23 50)) 30
                    eq_refl eq_refl eq_refl eq_refl eq_refl ltac:(lia))
             eq_refl eq_refl).
  - apply (proj2 (X10_isNight_calendar_ends
                    (events_at (last_year 12 0) (last_year 6 0) (last_year 23 50)) 30
                    eq_refl eq_refl eq_refl eq_refl eq_refl ltac:(lia))
             eq_refl eq_refl).
Defined.

(** ** The classifier, hour by hour *)

Section ClassifierHours.

Local Open Scope Z_scope.

(** X11: [isItDark] reads nothing of the three datetimes but their hour
    and minute fields: date, seconds and tzinfo never matter. *)
Theorem X11_isItDark_reads_hour_and_minute :
  forall (this this' : SunThemeSwitcher) (conf : settings) (now now' : datetime),
    hour (sunrise_time this) = hour (sunrise_time this') ->
    minute (sunrise_time this) = minute (sunrise_time this') ->
    hour (sunset_time this) = hour (sunset_time this') ->
    minute (sunset_time this) = minute (sunset_time this') ->
    hour now = hour now' -> minute now = minute now' ->
    isItDark this conf now = isItDark this' conf now'.
Proof.
  intros this this' conf now now' H1 H2 H3 H4 H5 H6.
  unfold isItDark. now rewrite H1, H2, H3, H4, H5, H6.
Qed.

Lemma X11_isItDark_reads_hour_and_minute_witness :
  isItDark six_to_six no_force (clock 7 30)
  = isItDark (mkSunThemeSwitcher (local_clock 6 0) (year_one 18 0)) no_force
      (mkdatetime 1999 12 31 7 30 59 999999 None).
Proof. apply X11_isItDark_reads_hour_and_minute; reflexivity. Defined.

(** X12: with no force switch and sunrise in an earlier hour than
    sunset, [isItDark] answers day exactly for the minutes strictly
    between the minute of sunrise and the minute of sunset. *)
Theorem X12_isItDark_day_is_between_the_minutes :
  forall (this : SunThemeSwitcher) (conf : settings) (now : datetime),
    truthy (conf "forceNight"%string) = false ->
    truthy (conf "forceDay"%string) = false ->
    hour (sunrise_time this) < hour (sunset_time this) ->
    0 <= minute (sunrise_time this) < 60 ->
    0 <= minute (sunset_time this) < 60 ->
    0 <= minute now < 60 ->
    (isItDark this conf now = false <->
     minute_of_day (sunrise_time this) < minute_of_day now
       < minute_of_day (sunset_time this)).
Proof.
  intros this conf now Hn Hd Hlt Hr Hs Hm.
  unfold isItDark, minute_of_day. rewrite Hn, Hd.
  destruct (Z.ltb_spec (hour (sunrise_time this)) (hour now));
    destruct (Z.ltb_spec (hour now) (hour (sunset_time this)));
    destruct (Z.eqb_spec (hour (sunrise_time this)) (hour now));
    destruct (Z.eqb_spec (hour now) (hour (sunset_time this)));
    destruct (Z.ltb_spec (minute (sunrise_time this)) (minute now));
    destruct (Z.ltb_spec (minute now) (minute (sunset_time this)));
    cbn [andb]; split; intros Hx; try reflexivity; try discriminate; try lia.
Qed.

Lemma X12_isItDark_day_is_between_the_minutes_witness :
  isItDark six_to_six no_force (clock 6 1) = false.
Proof.
  apply (X12_isItDark_day_is_between_the_minutes six_to_six no_force (clock 6 1));
    try reflexivity; cbn; lia.
Defined.

(** X13: with no force switch and sunrise and sunset in the same hour,
    the minute of sunset is never read: in that hour [isItDark] answers
    day for every minute after the minute of sunrise, also after
    sunset, and night in every other hour. *)
Theorem X13_isItDark_same_hour_ignores_sunset :
  forall (this : SunThemeSwitcher) (conf : settings) (now : datetime),
    truthy (conf "forceNight"%string) = false ->
    truthy (conf "forceDay"%string) = false ->
    hour (sunrise_time this) = hour (sunset_time this) ->
    (isItDark this conf now = false <->
     hour now = hour (sunrise_time this) /\ minute (sunrise_time this) < minute now).
Proof.
  intros this conf now Hn Hd He.
  unfold isItDark. rewrite Hn, Hd, <- He.
  destruct (Z.ltb_spec (hour (sunrise_time this)) (hour now));
    destruct (Z.ltb_spec (hour now) (hour (sunrise_time this)));
    destruct (Z.eqb_spec (hour (sunrise_time this)) (hour now));
    destruct (Z.eqb_spec (hour now) (hour (sunrise_time this)));
    destruct (Z.ltb_spec (minute (sunrise_time this)) (minute now));
    destruct (Z.ltb_spec (minute now) (minute (sunset_time this)));
    cbn [andb]; split; intros Hx; try reflexivity; try discriminate; try lia.
Qed.

Lemma X13_isItDark_same_hour_ignores_sunset_witness :
  isItDark (mkSunThemeSwitcher (clock 12 10) (clock 12 20)) no_force (clock 12 55) = false.
Proof.
  apply (X13_isItDark_same_hour_ignores_sunset
           (mkSunThemeSwitcher (clock 12 10) (clock 12 20)) no_force (clock 12 55));
    try reflexivity. cbn. lia.
Defined.

End ClassifierHours.

(** ** Applying a scheme and a theme *)

Section SchemeChange.

Local Open Scope Z_scope.

Lemma setting_eqb_refl (v : setting) : setting_eqb v v = true.
Proof.
  destruct v as [|b|n|s]; cbn.
  - reflexivity.
  - now destruct b.
  - apply Z.eqb_refl.
  - apply String.eqb_refl.
Qed.

Lemma file_get_set (f : settings_file) (key : string) (v d : setting) :
  file_get (file_set f key v) key d = v.
Proof. unfold file_get, file_set. now rewrite String.eqb_refl. Qed.

Lemma file_set_other (f : settings_file) (key k : string) (v : setting) :
  k <> key -> file_set f key v k = f k.
Proof.
  intros H. unfold file_set. destruct (String.eqb_spec k key); [contradiction | reflexivity].
Qed.

Section OneKey.

Variable key : string.
Variable line : setting -> printed.
Variable prefs : settings_file.
Variable desired : setting.

Lemma change_key_other (k : string) :
  k <> key -> fst (change_key key line prefs desired) k = prefs k.
Proof.
  intros H. unfold change_key.
  destruct (truthy desired); [| reflexivity].
  destruct (negb _); [| reflexivity].
  cbn [fst]. now apply file_set_other.
Qed.

Lemma change_key_falsy :
  truthy desired = false -> change_key key line prefs desired = (prefs, []).
Proof. intros H. unfold change_key. now rewrite H. Qed.

Lemma change_key_post :
  truthy desired = true ->
  setting_eqb (file_get (fst (change_key key line prefs desired)) key SNone) desired
  = true.
Proof.
  intros H. unfold change_key. rewrite H.
  destruct (setting_eqb (file_get prefs key SNone) desired) eqn:E; cbn [negb fst].
  - exact E.
  - rewrite file_get_set. apply setting_eqb_refl.
Qed.

(** A line is printed exactly when the key is written, and that is when
    a truthy value differs from the current one. *)
Lemma change_key_cases :
  (truthy desired = true /\ setting_eqb (file_get prefs key SNone) desired = false /\
   change_key key line prefs desired = (file_set prefs key desired, [line desired])) \/
  ((truthy desired = false \/ setting_eqb (file_get prefs key SNone) desired = true) /\
   change_key key line prefs desired = (prefs, [])).
Proof.
  unfold change_key.
  destruct (truthy desired); [| right; split; [now left | reflexivity]].
  destruct (setting_eqb (file_get prefs key SNone) desired); cbn [negb].
  - right. split; [now right | reflexivity].
  - left. repeat split; reflexivity.
Qed.

End OneKey.

Lemma change_key_settled (key : string) (line : setting -> printed)
  (prefs : settings_file) (desired : setting) :
  (truthy desired = true -> setting_eqb (file_get prefs key SNone) desired = true) ->
  change_key key line prefs desired = (prefs, []).
Proof.
  intros H. unfold change_key.
  destruct (truthy desired); [| reflexivity].
  now rewrite H.
Qed.

Lemma scheme_theme_keys : "color_scheme"%string <> "theme"%string.
Proof. discriminate. Qed.

Lemma changeScheme_fst (prefs : settings_file) (s t : setting) :
  fst (changeScheme prefs s t)
  = fst (change_key "theme" SwitchingTheme
           (fst (change_key "color_scheme" SwitchingScheme prefs s)) t).
Proof.
  unfold changeScheme.
  destruct (change_key "color_scheme" SwitchingScheme prefs s) as [p1 o1].
  cbn [fst]. now destruct (change_key "theme" SwitchingTheme p1 t).
Qed.

Lemma changeScheme_snd (prefs : settings_file) (s t : setting) :
  snd (changeScheme prefs s t)
  = snd (change_key "color_scheme" SwitchingScheme prefs s)
    ++ snd (change_key "theme" SwitchingTheme
              (fst (change_key "color_scheme" SwitchingScheme prefs s)) t).
Proof.
  unfold changeScheme.
  destruct (change_key "color_scheme" SwitchingScheme prefs s) as [p1 o1].
  cbn [fst snd]. now destruct (change_key "theme" SwitchingTheme p1 t).
Qed.

(** After [changeScheme] each key with a truthy wish holds it. *)
Lemma changeScheme_post (prefs : settings_file) (s t : setting) :
  (truthy s = true ->
   setting_eqb (file_get (fst (changeScheme prefs s t)) "color_scheme" SNone) s = true) /\
  (truthy t = true ->
   setting_eqb (file_get (fst (changeScheme prefs s t)) "theme" SNone) t = true).
Proof.
  rewrite changeScheme_fst. split; intros H.
  - unfold file_get.
    rewrite change_key_other by exact scheme_theme_keys.
    now apply change_key_post.
  - now apply change_key_post.
Qed.

Lemma changeScheme_settled (prefs : settings_file) (s t : setting) :
  (truthy s = true -> setting_eqb (file_get prefs "color_scheme" SNone) s = true) ->
  (truthy t = true -> setting_eqb (file_get prefs "theme" SNone) t = true) ->
  changeScheme prefs s t = (prefs, []).
Proof.
  intros Hs Ht. unfold changeScheme.
  rewrite (change_key_settled _ _ _ _ Hs), (change_key_settled _ _ _ _ Ht).
  reflexivity.
Qed.

Lemma changeScheme_again (prefs : settings_file) (s t : setting) :
  changeScheme (fst (changeScheme prefs s t)) s t = (fst (changeScheme prefs s t), []).
Proof.
  destruct (changeScheme_post prefs s t) as [Hs Ht].
  now apply changeScheme_settled.
Qed.

End SchemeChange.

(** X14: [changeScheme] is idempotent: called again with the same
    wishes on the preferences it left, it writes nothing and prints
    nothing. *)
Theorem X14_changeScheme_idempotent :
  forall (prefs : settings_file) (desiredScheme desiredTheme : setting),
    changeScheme (fst (changeScheme prefs desiredScheme desiredTheme))
      desiredScheme desiredTheme
    = (fst (changeScheme prefs desiredScheme desiredTheme), []).
Proof. exact changeScheme_again. Qed.

(** X15: [changeScheme] touches no key but "color_scheme" and "theme",
    and leaves each of the two alone when the wish for it is empty (or
    otherwise falsy). *)
Theorem X15_changeScheme_frame :
  forall (prefs : settings_file) (desiredScheme desiredTheme : setting) (k : string),
    (k <> "color_scheme"%string -> k <> "theme"%string ->
     fst (changeScheme prefs desiredScheme desiredTheme) k = prefs k) /\
    (truthy desiredScheme = false ->
     fst (changeScheme prefs desiredScheme desiredTheme) "color_scheme"%string
     = prefs "color_scheme"%string) /\
    (truthy desiredTheme = false ->
     fst (changeScheme prefs desiredScheme desiredTheme) "theme"%string
     = prefs "theme"%string).
Proof.
  intros prefs s t k. rewrite changeScheme_fst. split; [| split].
  - intros H1 H2. rewrite change_key_other by exact H2. now apply change_key_other.
  - intros H. rewrite change_key_other by exact scheme_theme_keys.
    now rewrite change_key_falsy.
  - intros H. rewrite (change_key_falsy "theme" _ _ _ H). cbn [fst].
    apply change_key_other. intros E. now apply scheme_theme_keys.
Qed.

Lemma X15_changeScheme_frame_witness :
  fst (changeScheme no_preferences (SString "Night.tmTheme") (SString "")) "theme"%string
  = None /\
  fst (changeScheme no_preferences (SString "Night.tmTheme") (SString ""))
    "font_size"%string = None.
Proof.
  split.
  - apply (proj2 (proj2 (X15_changeScheme_frame no_preferences (SString "Night.tmTheme")
                           (SString "") "theme"))).
    reflexivity.
  - apply (proj1 (X15_changeScheme_frame no_preferences (SString "Night.tmTheme")
                    (SString "") "font_size")); discriminate.
Defined.

(** X16: after [changeScheme] every non-empty wish is what the
    preferences hold (equal by Python's [==]); a line is printed for a
    key exactly when that key's wish is truthy and differs from the
    value the preferences held; and when nothing is printed the
    preferences are the ones passed in. *)
Theorem X16_changeScheme_writes_what_differs :
  forall (prefs : settings_file) (desiredScheme desiredTheme : setting),
    (truthy desiredScheme = true ->
     setting_eqb (file_get (fst (changeScheme prefs desiredScheme desiredTheme))
                    "color_scheme" SNone) desiredScheme = true) /\
    (truthy desiredTheme = true ->
     setting_eqb (file_get (fst (changeScheme prefs desiredScheme desiredTheme))
                    "theme" SNone) desiredTheme = true) /\
    (In (SwitchingScheme desiredScheme) (snd (changeScheme prefs desiredScheme desiredTheme))
     <-> truthy desiredScheme = true /\
         setting_eqb (file_get prefs "color_scheme" SNone) desiredScheme = false) /\
    (In (SwitchingTheme desiredTheme) (snd (changeScheme prefs desiredScheme desiredTheme))
     <-> truthy desiredTheme = true /\
         setting_eqb (file_get prefs "theme" SNone) desiredTheme = false) /\
    (snd (changeScheme prefs desiredScheme desiredTheme) = [] ->
     fst (changeScheme prefs desiredScheme desiredTheme) = prefs).
Proof.
  intros prefs s t.
  destruct (changeScheme_post prefs s t) as [Ps Pt].
  split; [exact Ps |]. split; [exact Pt |].
  clear Ps Pt. unfold changeScheme.
  destruct (change_key_cases "color_scheme" SwitchingScheme prefs s)
    as [(Ts & Es & E1)|(Hs & E1)]; rewrite E1; clear E1.
  - assert (Hcur : file_get (file_set prefs "color_scheme" s) "theme" SNone
                   = file_get prefs "theme" SNone) by reflexivity.
    destruct (change_key_cases "theme" SwitchingTheme
                (file_set prefs "color_scheme" s) t)
      as [(Tt & Et & E2)|(Hq & E2)]; rewrite E2; clear E2; rewrite Hcur in *;
      cbn [fst snd app].
    + split; [| split; [| discriminate]].
      * split; [intros _; now split | intros _; now left].
      * split; [intros _; now split | intros _; right; now left].
    + split; [| split; [| discriminate]].
      * split; [intros _; now split | intros _; now left].
      * split; [intros [H|[]]; discriminate H | intros [H1 H2]].
        destruct Hq as [Hq|Hq]; congruence.
  - destruct (change_key_cases "theme" SwitchingTheme prefs t)
      as [(Tt & Et & E2)|(Hq & E2)]; rewrite E2; clear E2; cbn [fst snd app].
    + split; [| split; [| discriminate]].
      * split; [intros [H|[]]; discriminate H | intros [H1 H2]].
        destruct Hs as [Hs|Hs]; congruence.
      * split; [intros _; now split | intros _; now left].
    + split; [| split; [| reflexivity]].
      * split; [intros [] | intros [H1 H2]]. destruct Hs as [Hs|Hs]; congruence.
      * split; [intros [] | intros [H1 H2]]. destruct Hq as [Hq|Hq]; congruence.
Qed.

Lemma X16_changeScheme_writes_what_differs_witness :
  setting_eqb
    (file_get (fst (changeScheme no_preferences (SString "Night.tmTheme") (SString "")))
       "color_scheme" SNone) (SString "Night.tmTheme") = true.
Proof.
  apply (proj1 (X16_changeScheme_writes_what_differs no_preferences
                  (SString "Night.tmTheme") (SString ""))).
  reflexivity.
Defined.

(** ** The periodic check *)

Section PeriodicCheck.

Local Open Scope Z_scope.

Variable this : SunThemeSwitcher.
Variable checkDelay : Z.

(** [setCorrectScheme] needs the clock only for the verdict of
    [isItDark]. *)
Lemma setCorrectScheme_verdict (file : settings_file) (now now' : datetime)
  (prefs : settings_file) :
  isItDark this (loaded file) now' = isItDark this (loaded file) now ->
  setCorrectScheme this file now' prefs = setCorrectScheme this file now prefs.
Proof. intros H. unfold setCorrectScheme. now rewrite H. Qed.

Lemma setCorrectScheme_again (file : settings_file) (now : datetime)
  (prefs : settings_file) :
  setCorrectScheme this file now (fst (setCorrectScheme this file now prefs))
  = (fst (setCorrectScheme this file now prefs), []).
Proof.
  unfold setCorrectScheme.
  destruct (isItDark this (loaded file) now); apply changeScheme_again.
Qed.

Lemma run_timeouts (file : settings_file) (now : datetime) (h : host) :
  timeouts (run this checkDelay file now h) = timeouts h ++ [checkDelay].
Proof.
  unfold run. now destruct (setCorrectScheme this file now (preferences h)).
Qed.

Lemma run_preferences (file : settings_file) (now : datetime) (h : host) :
  preferences (run this checkDelay file now h)
  = fst (setCorrectScheme this file now (preferences h)) /\
  console (run this checkDelay file now h)
  = console h ++ snd (setCorrectScheme this file now (preferences h)).
Proof.
  unfold run. now destruct (setCorrectScheme this file now (preferences h)).
Qed.

(** One pending timeout stays one pending timeout. *)
Lemma fire_all_timeouts (ticks : list (settings_file * datetime)) :
  forall h, timeouts h = [checkDelay] ->
  timeouts (fire_all this checkDelay ticks h) = [checkDelay].
Proof.
  induction ticks as [|[file now] ticks IH]; intros h Hh; cbn [fire_all].
  - exact Hh.
  - apply IH. unfold fire. rewrite Hh. now rewrite run_timeouts.
Qed.

(** Ticks that see the settings file and the verdict of the first run
    change nothing. *)
Lemma fire_all_quiet (file : settings_file) (now : datetime)
  (ticks : list (settings_file * datetime)) :
  Forall (fun tick => fst tick = file /\
            isItDark this (loaded file) (snd tick) = isItDark this (loaded file) now)
         ticks ->
  forall h prefs0,
    timeouts h = [checkDelay] ->
    preferences h = fst (setCorrectScheme this file now prefs0) ->
    fire_all this checkDelay ticks h = h.
Proof.
  induction 1 as [|[file' now'] ticks [Hf Hv] _ IH]; intros h prefs0 Ht Hp;
    cbn [fire_all].
  - reflexivity.
  - cbn [fst snd] in Hf, Hv. subst file'.
    assert (Hfire : fire this checkDelay file now' h = h).
    { unfold fire. rewrite Ht. unfold run. cbn [timeouts preferences console].
      rewrite (setCorrectScheme_verdict file now now' _ Hv), Hp.
      rewrite setCorrectScheme_again, app_nil_r. rewrite <- Hp.
      destruct h as [ts ps cs]. cbn in *. now subst ts. }
    rewrite Hfire. now apply (IH h prefs0).
Qed.

End PeriodicCheck.

(** X17: [setCorrectScheme] repeated with the same settings and the
    same verdict of [isItDark] is a no-op: a second call, at any clock
    reading that classifies the same, writes nothing and prints
    nothing. *)
Theorem X17_setCorrectScheme_settles :
  forall (this : SunThemeSwitcher) (file : settings_file) (now now' : datetime)
         (prefs : settings_file),
    isItDark this (loaded file) now' = isItDark this (loaded file) now ->
    setCorrectScheme this file now' (fst (setCorrectScheme this file now prefs))
    = (fst (setCorrectScheme this file now prefs), []).
Proof.
  intros this file now now' prefs H.
  rewrite (setCorrectScheme_verdict this file now now' _ H).
  apply setCorrectScheme_again.
Qed.

Lemma X17_setCorrectScheme_settles_witness :
  setCorrectScheme six_to_six sample_file (clock 23 59)
    (fst (setCorrectScheme six_to_six sample_file (clock 5 0) no_preferences))
  = (fst (setCorrectScheme six_to_six sample_file (clock 5 0) no_preferences), []).
Proof. apply X17_setCorrectScheme_settles. reflexivity. Defined.

(** X18: what [setCorrectScheme] applies is decided by [isItDark]: when
    it answers night (so whenever forceNight is set) the preferences
    end up holding the configured night scheme and night theme, when it
    answers day the day ones; a scheme or theme that is not configured
    (or empty) leaves its preference key as it was. *)
Theorem X18_setCorrectScheme_applies_the_verdict :
  forall (this : SunThemeSwitcher) (file : settings_file) (now : datetime)
         (prefs : settings_file) (scheme theme : setting),
    scheme = file_get file (if isItDark this (loaded file) now
                            then "nightColourScheme" else "dayColourScheme")%string
               (SString "") ->
    theme = file_get file (if isItDark this (loaded file) now
                           then "nightWindowTheme" else "dayWindowTheme")%string
              (SString "") ->
    (truthy scheme = true ->
     setting_eqb (file_get (fst (setCorrectScheme this file now prefs))
                    "color_scheme" SNone) scheme = true) /\
    (truthy theme = true ->
     setting_eqb (file_get (fst (setCorrectScheme this file now prefs))
                    "theme" SNone) theme = true) /\
    (truthy scheme = false ->
     fst (setCorrectScheme this file now prefs) "color_scheme"%string
     = prefs "color_scheme"%string) /\
    (truthy theme = false ->
     fst (setCorrectScheme this file now prefs) "theme"%string
     = prefs "theme"%string).
Proof.
  intros this file now prefs scheme theme Hs Ht.
  unfold setCorrectScheme. destruct (isItDark this (loaded file) now); subst scheme theme.
  - destruct (changeScheme_post prefs (file_get file "nightColourScheme" (SString ""))
                (file_get file "nightWindowTheme" (SString ""))) as [P1 P2].
    split; [exact P1 |]. split; [exact P2 |].
    split; intros H.
    + rewrite changeScheme_fst, change_key_other by exact scheme_theme_keys.
      now rewrite change_key_falsy.
    + rewrite changeScheme_fst, (change_key_falsy "theme" _ _ _ H). cbn [fst].
      apply change_key_other. intros E. now apply scheme_theme_keys.
  - destruct (changeScheme_post prefs (file_get file "dayColourScheme" (SString ""))
                (file_get file "dayWindowTheme" (SString ""))) as [P1 P2].
    split; [exact P1 |]. split; [exact P2 |].
    split; intros H.
    + rewrite changeScheme_fst, change_key_other by exact scheme_theme_keys.
      now rewrite change_key_falsy.
    + rewrite changeScheme_fst, (change_key_falsy "theme" _ _ _ H). cbn [fst].
      apply change_key_other. intros E. now apply scheme_theme_keys.
Qed.

Lemma X18_setCorrectScheme_applies_the_verdict_witness :
  setting_eqb
    (file_get (fst (setCorrectScheme six_to_six sample_file (clock 5 0) no_preferences))
       "color_scheme" SNone) (SString "Night.tmTheme") = true /\
  fst (setCorrectScheme six_to_six no_preferences (clock 5 0) no_preferences)
    "theme"%string = None.
Proof.
  split.
  - apply (proj1 (X18_setCorrectScheme_applies_the_verdict six_to_six sample_file
                    (clock 5 0) no_preferences (SString "Night.tmTheme")
                    (SString "Night.sublime-theme") eq_refl eq_refl)).
    reflexivity.
  - apply (proj2 (proj2 (proj2
             (X18_setCorrectScheme_applies_the_verdict six_to_six no_preferences
                (clock 5 0) no_preferences (SString "") (SString "")
                eq_refl eq_refl)))).
    reflexivity.
Defined.

(** X19: the timer chain never branches and never dies: after the first
    [run] exactly one timeout is pending, with the delay [checkDelay],
    and so it is after every firing, whatever the settings and the
    clock of each tick. *)
Theorem X19_one_pending_timeout :
  forall (this : SunThemeSwitcher) (checkDelay : Z) (file : settings_file)
         (now : datetime) (ticks : list (settings_file * datetime)) (h : host),
    timeouts h = [] ->
    timeouts (fire_all this checkDelay ticks (run this checkDelay file now h))
    = [checkDelay].
Proof.
  intros this checkDelay file now ticks h Hh.
  apply fire_all_timeouts. now rewrite run_timeouts, Hh.
Qed.

Lemma X19_one_pending_timeout_witness :
  timeouts (fire_all six_to_six 2000
              [(sample_file, clock 5 1); (no_preferences, clock 12 0)]
              (run six_to_six 2000 sample_file (clock 5 0)
                 (mkhost [] no_preferences [])))
  = [2000].
Proof. apply X19_one_pending_timeout. reflexivity. Defined.

(** X20: no redundant writes across cycles: as long as the settings
    file stays the same and [isItDark] keeps the verdict of the first
    run, every further tick leaves the preferences, the console and the
    pending timeout exactly as the first run left them. *)
Theorem X20_cycles_write_once :
  forall (this : SunThemeSwitcher) (checkDelay : Z) (file : settings_file)
         (now : datetime) (ticks : list (settings_file * datetime)) (h : host),
    timeouts h = [] ->
    Forall (fun tick => fst tick = file /\
              isItDark this (loaded file) (snd tick) = isItDark this (loaded file) now)
           ticks ->
    fire_all this checkDelay ticks (run this checkDelay file now h)
    = run this checkDelay file now h.
Proof.
  intros this checkDelay file now ticks h Hh Hticks.
  apply (fire_all_quiet this checkDelay file now ticks Hticks _ (preferences h)).
  - now rewrite run_timeouts, Hh.
  - apply run_preferences.
Qed.

Lemma X20_cycles_write_once_witness :
  fire_all six_to_six 2000 [(sample_file, clock 5 1); (sample_file, clock 23 0)]
    (run six_to_six 2000 sample_file (clock 5 0) (mkhost [] no_preferences []))
  = run six_to_six 2000 sample_file (clock 5 0) (mkhost [] no_preferences []).
Proof.
  apply X20_cycles_write_once; [reflexivity |].
  repeat constructor.
Defined.
